(** * Instrumental drivers: Tektronix scopes and Newport power meters

    A shallow embedding of

    - [instrumental/drivers/scopes/tektronix.py]   ([TekScope] and its two
      model classes), and
    - [instrumental/drivers/powermeters/newport.py] ([Newport_1830_C] and
      [Newport_2936_R]),

    followed by the properties of these drivers.

    Conventions of the embedding.

    - A driver method is a computation over a [World]: the instrument behind
      the VISA resource together with the list of messages written to it so
      far.  A Python exception is a [Raise] result; the world it is paired
      with records what had been sent when the exception left the method.
    - The builtins are those of Python 3: [ask] and [query] return text,
      [read_raw] and [read_bytes] return a [bytes] object, indexing a
      [bytes] object gives an [int], and [int] reads digits grouped by
      underscores.  Text and [bytes] objects are both [string] here, one
      character for each byte; the answers of an instrument are ASCII.
    - Floating point is kept abstract in the drivers: the class [Float]
      gives the operations they use, and every statement holds for any
      arithmetic with these operations.  Two instances follow, for the
      concrete runs: IEEE 754 binary64, the arithmetic of Python's
      [float] and of numpy's [float64], and exact arithmetic on [Q].
    - [time.sleep] and transport failures are not part of the model. *)

From Stdlib Require Import ZArith QArith List String Ascii Bool Lia Floats.
From Stdlib Require Import DecimalString DecimalPos.
Import ListNotations.

Local Open Scope string_scope.
Local Open Scope Z_scope.

(* ===================================================================== *)
(** ** Python values, exceptions and builtins                             *)
(* ===================================================================== *)

Module Py.

(** The exceptions the two drivers can raise.  [Exception] carries its
    message; [KeyError] the [repr] of the missing key. *)
Inductive exn : Type :=
| Exception (msg : string)
| ValueError
| IndexError
| KeyError (key : string)
| AssertionError
| UndefinedUnitError (name : string).

Inductive result (A : Type) : Type :=
| Ok (a : A)
| Raise (e : exn).
Arguments Ok {A} a.
Arguments Raise {A} e.

Definition of_option {A} (e : exn) (o : option A) : result A :=
  match o with Some a => Ok a | None => Raise e end.

(** *** Characters *)

Definition code (c : ascii) : Z := Z.of_N (N_of_ascii c).

Definition is_digit (c : ascii) : bool := (48 <=? code c) && (code c <=? 57).

Definition digit_value (c : ascii) : Z := code c - 48.

(** The whitespace that [int] and [float] skip at both ends of ASCII
    text and of a [bytes] object: space, TAB, LF, VT, FF, CR. *)
Definition is_space (c : ascii) : bool :=
  (code c =? 32) || ((9 <=? code c) && (code c <=? 13)).

Definition is_upper (c : ascii) : bool := (65 <=? code c) && (code c <=? 90).

Definition dquote : ascii := "034"%char.

(** The line feed, as a one-character string. *)
Definition LF : string := String "010"%char EmptyString.

(** [s] between two double quotes. *)
Definition quoted (s : string) : string :=
  String dquote (s ++ String dquote EmptyString).

Definition lower_char (c : ascii) : ascii :=
  if is_upper c then ascii_of_N (N_of_ascii c + 32) else c.

(** *** Strings *)

(** [s.lower()] *)
Fixpoint lower (s : string) : string :=
  match s with
  | EmptyString => EmptyString
  | String c s' => String (lower_char c) (lower s')
  end.

Fixpoint rev_append (s acc : string) : string :=
  match s with
  | EmptyString => acc
  | String c s' => rev_append s' (String c acc)
  end.

Definition rev (s : string) : string := rev_append s EmptyString.

Fixpoint lstrip_by (p : ascii -> bool) (s : string) : string :=
  match s with
  | EmptyString => EmptyString
  | String c s' => if p c then lstrip_by p s' else s
  end.

(** [s.strip()] and [s.strip(chars)] for a one-character [chars]. *)
Definition strip_by (p : ascii -> bool) (s : string) : string :=
  rev (lstrip_by p (rev (lstrip_by p s))).

Definition strip (s : string) : string := strip_by is_space s.

Definition strip_char (c : ascii) (s : string) : string :=
  strip_by (Ascii.eqb c) s.

Fixpoint drop (n : nat) (s : string) : string :=
  match n, s with
  | O, _ => s
  | S n', String _ s' => drop n' s'
  | S _, EmptyString => EmptyString
  end.

Fixpoint take (n : nat) (s : string) : string :=
  match n, s with
  | S n', String c s' => String c (take n' s')
  | _, _ => EmptyString
  end.

(** [s[a:b]] for [0 <= a] and [0 <= b]. *)
Definition slice (a b : nat) (s : string) : string := take (b - a) (drop a s).

(** [s.startswith(pre)] *)
Fixpoint startswith (pre s : string) : bool :=
  match pre with
  | EmptyString => true
  | String a pre' =>
      match s with
      | EmptyString => false
      | String b s' => Ascii.eqb a b && startswith pre' s'
      end
  end.

Fixpoint removelast (s : string) : string :=
  match s with
  | EmptyString => EmptyString
  | String c EmptyString => EmptyString
  | String c s' => String c (removelast s')
  end.

(** [s[1:-1]] *)
Definition slice_1_m1 (s : string) : string :=
  match s with
  | EmptyString => EmptyString
  | String _ s' => removelast s'
  end.

(** *** Values of the types [int] and [bytes]

    [b[i]] on a [bytes] object [b], for [0 <= i], is an [int], the value
    of the byte, or [IndexError].  [==] and [!=] on an [int] and a
    [bytes] compare objects of different types: these are never equal. *)
Inductive value : Type :=
| VInt (n : Z)
| VBytes (b : string).

Definition value_eqb (a b : value) : bool :=
  match a, b with
  | VInt m, VInt n => m =? n
  | VBytes x, VBytes y => String.eqb x y
  | _, _ => false
  end.

Definition value_neb (a b : value) : bool := negb (value_eqb a b).

Definition index_bytes (b : string) (i : nat) : result Z :=
  match String.get i b with
  | Some c => Ok (code c)
  | None => Raise IndexError
  end.

(** [s.split(sep)] for a one-character separator. *)
Fixpoint split_aux (sep : ascii) (cur : string) (s : string) : list string :=
  match s with
  | EmptyString => [rev cur]
  | String c s' =>
      if Ascii.eqb c sep then rev cur :: split_aux sep EmptyString s'
      else split_aux sep (String c cur) s'
  end.

Definition split (sep : ascii) (s : string) : list string :=
  split_aux sep EmptyString s.

(** *** [int(s)] on ASCII text or on a [bytes] object, base 10

    Surrounding whitespace is dropped, one sign is accepted, and at least
    one decimal digit must follow; the digits may be grouped by single
    underscores, each between two digits.  Anything else is a
    [ValueError]. *)
Fixpoint digits_value (acc : Z) (s : string) : option Z :=
  match s with
  | EmptyString => Some acc
  | String c s' =>
      if is_digit c then digits_value (10 * acc + digit_value c) s'
      else if Ascii.eqb c "_" then
        match s' with
        | String d _ => if is_digit d then digits_value acc s' else None
        | EmptyString => None
        end
      else None
  end.

Definition unsigned_value (s : string) : option Z :=
  match s with
  | String c _ => if is_digit c then digits_value 0 s else None
  | EmptyString => None
  end.

Definition signed_value (t : string) : option Z :=
  match t with
  | String "-" r => option_map Z.opp (unsigned_value r)
  | String "+" r => unsigned_value r
  | t => unsigned_value t
  end.

Definition int_of_string (s : string) : option Z := signed_value (strip s).

Definition int (s : string) : result Z := of_option ValueError (int_of_string s).

(** *** Formatting: ["{}".format(n)] and ["%d" % n] for an [int] *)
Definition str_of_int (n : Z) : string := NilZero.string_of_int (Z.to_int n).

(** *** The keys [True], [False] and integers of a dict *)
Inductive key : Type :=
| KBool (b : bool)
| KInt (n : Z).

(** [True == 1] and [False == 0], and the hashes agree. *)
Definition key_value (k : key) : Z :=
  match k with
  | KBool true => 1
  | KBool false => 0
  | KInt n => n
  end.

Definition key_eqb (a b : key) : bool := key_value a =? key_value b.

Definition repr_key (k : key) : string :=
  match k with
  | KBool true => "True"
  | KBool false => "False"
  | KInt n => str_of_int n
  end.

(** A dict literal, looked up by key equality. *)
Fixpoint lookup {K V} (eqb : K -> K -> bool) (k : K) (d : list (K * V)) : option V :=
  match d with
  | [] => None
  | (k', v) :: d' => if eqb k' k then Some v else lookup eqb k d'
  end.

Definition str_lookup {V} := @lookup string V String.eqb.

End Py.

(* ===================================================================== *)
(** ** The instrument connection and the driver monad                     *)
(* ===================================================================== *)

Module Visa.
Import Py.

(** The VISA resource a driver talks to: a message is written to it, a
    line is read back, or a raw block is read back. *)
Class Resource (R : Type) : Type := {
  rsrc_write : string -> R -> R;
  rsrc_read : R -> string * R;
  rsrc_read_raw : R -> string * R
}.

(** The instrument and the messages written to it, oldest first. *)
Record World (R : Type) : Type := mkWorld {
  dev : R;
  sent : list string
}.
Arguments mkWorld {R} dev sent.
Arguments dev {R} w.
Arguments sent {R} w.

(** A driver method: it ends in a value or an exception, and in a world. *)
Definition M (R A : Type) : Type := World R -> result A * World R.

Definition ret {R A} (a : A) : M R A := fun w => (Ok a, w).

Definition raise {R A} (e : exn) : M R A := fun w => (Raise e, w).

Definition bind {R A B} (m : M R A) (k : A -> M R B) : M R B :=
  fun w =>
    match m w with
    | (Ok a, w') => k a w'
    | (Raise e, w') => (Raise e, w')
    end.

(** A pure step that may raise. *)
Definition lift {R A} (r : result A) : M R A := fun w => (r, w).

Declare Scope drv_scope.
Delimit Scope drv_scope with drv.
Notation "x <- m ;; k" := (bind m (fun x => k))
  (at level 61, m at next level, right associativity) : drv_scope.
Notation "m ;; k" := (bind m (fun _ => k))
  (at level 61, right associativity) : drv_scope.

Section Connection.
Context {R : Type} `{Resource R}.

(** The world after [msg] has been written. *)
Definition after_write (msg : string) (w : World R) : World R :=
  mkWorld (rsrc_write msg (dev w)) (sent w ++ [msg]).

(** What the instrument answers to [msg], and the world after that. *)
Definition reply (msg : string) (w : World R) : string :=
  fst (rsrc_read (dev (after_write msg w))).

Definition after_ask (msg : string) (w : World R) : World R :=
  mkWorld (snd (rsrc_read (dev (after_write msg w)))) (sent w ++ [msg]).

(** The next raw block, and the world after it has been read. *)
Definition raw_block (w : World R) : string := fst (rsrc_read_raw (dev w)).

Definition after_read_raw (w : World R) : World R :=
  mkWorld (snd (rsrc_read_raw (dev w))) (sent w).

(** [inst.write(msg)] *)
Definition write (msg : string) : M R unit :=
  fun w => (Ok tt, after_write msg w).

(** [inst.ask(msg)], [inst.query(msg)]: write, then read one line. *)
Definition ask (msg : string) : M R string :=
  fun w => (Ok (reply msg w), after_ask msg w).

(** [inst.read_raw()] *)
Definition read_raw : M R string :=
  fun w => (Ok (raw_block w), after_read_raw w).
End Connection.

(** The messages a method has written, given the worlds around its run. *)
Definition newly_sent {R} (w w' : World R) (msgs : list string) : Prop :=
  sent w' = (sent w ++ msgs)%list.

End Visa.

(* ===================================================================== *)
(** ** Numbers and quantities                                             *)
(* ===================================================================== *)

Module Num.

(** The floating-point operations the drivers use: conversion of an
    integer, the three array operations of the scaling law, and the
    builtin [float(s)] on a string ([None] for a [ValueError]). *)
Class Float (F : Type) : Type := {
  of_int : Z -> F;
  fadd : F -> F -> F;
  fsub : F -> F -> F;
  fmul : F -> F -> F;
  float_of_string : string -> option F
}.

(** A magnitude tagged with the name of its unit. *)
Record Quantity (A : Type) : Type := mkQuantity {
  magnitude : A;
  units : string
}.
Arguments mkQuantity {A} magnitude units.
Arguments magnitude {A} q.
Arguments units {A} q.

(** The unit registry [u] and the quantity constructor [Q_] of the
    package: which unit names [u] defines, and [Q_(s)] on a string such as
    ["1.5V"] ([None] when the string does not parse). *)
Class Registry (F : Type) : Type := {
  defines : string -> bool;
  quantity_of_string : string -> option (Quantity F)
}.

End Num.

(* ===================================================================== *)
(** ** The two numpy functions of [get_data]                              *)
(* ===================================================================== *)

Module Numpy.
Import Py.

(** [np.arange(a, b)] on integers. *)
Definition arange (a b : Z) : list Z :=
  map (fun k => a + Z.of_nat k) (seq 0 (Z.to_nat (b - a))).

(** One item of dtype ['>i2']: two bytes, high byte first, two's
    complement. *)
Definition be_int16 (hi lo : ascii) : Z :=
  let v := 256 * code hi + code lo in
  if v <? 32768 then v else v - 65536.

(** The two bytes of an item, and [a.astype('>i2').tobytes()]: what a
    scope sends for the samples [a]. *)
Definition be_bytes (v : Z) : string :=
  let n := v mod 65536 in
  String (ascii_of_N (Z.to_N (n / 256)))
    (String (ascii_of_N (Z.to_N (n mod 256))) EmptyString).

Fixpoint tobytes (samples : list Z) : string :=
  match samples with
  | [] => EmptyString
  | v :: rest => be_bytes v ++ tobytes rest
  end.

Fixpoint items (n : nat) (s : string) : list Z :=
  match n, s with
  | S n', String hi (String lo s') => be_int16 hi lo :: items n' s'
  | _, _ => []
  end.

(** [np.frombuffer(buf, dtype='>i2', offset=offset, count=count)]: a
    negative [count] takes all the items after [offset]; the buffer must
    then be a whole number of items, and otherwise hold at least [count]
    items. *)
Definition frombuffer (buf : string) (offset count : Z) : result (list Z) :=
  let ts := Z.of_nat (String.length buf) in
  if (offset <? 0) || (ts <? offset) then Raise ValueError
  else
    let s := ts - offset in
    let data := drop (Z.to_nat offset) buf in
    if count <? 0 then
      if s mod 2 =? 0 then Ok (items (Z.to_nat (s / 2)) data)
      else Raise ValueError
    else
      if s <? count * 2 then Raise ValueError
      else Ok (items (Z.to_nat count) data).

End Numpy.

(* ===================================================================== *)
(** ** [drivers/scopes/tektronix.py]                                      *)
(* ===================================================================== *)

Module Tektronix.
Import Py Visa Num Numpy.
Local Open Scope drv_scope.

(** The two classes derived from [TekScope]; both bodies are [pass]. *)
Inductive model : Type :=
| TDS_3000
| MSO_DPO_4000.

Definition _tds_3000_models : list string := ["TDS 3032"; "TDS 3034B"].
Definition _mso_dpo_4000_models : list string := ["MSO4034"; "DPO4034"].

Definition mem (s : string) (l : list string) : bool := existsb (String.eqb s) l.

(** The class [_instrument] picks from the answer to [*IDN?]; [None] is
    [InstrumentTypeError]. *)
Definition model_of_idn (idn : string) : option model :=
  match split "," idn with
  | [manufac; model; serial; firmware] =>
      if String.eqb manufac "TEKTRONIX" then
        if mem model _tds_3000_models then Some TDS_3000
        else if mem model _mso_dpo_4000_models then Some MSO_DPO_4000
        else None
      else None
  | _ => None
  end.

(** The point count [get_data] asks for, whatever the scope reports. *)
Definition stop : Z := 10000.

Definition missing_header : string :=
  "Binary reponse missing header! Something's wrong.".

Definition stats_off : string :=
  "Measurement statistics are turned off, please turn them on.".

(** Lines 87-90 of [get_data], on the [bytes] object that [read_raw]
    returns: [raw_bin[0]] is an [int] and is compared with the [bytes]
    object [b'#']; [int(raw_bin[1])] is the [int] [raw_bin[1]] itself;
    [raw_bin[2:header_width]] is a [bytes] object, which [int] reads
    as it reads text. *)
Definition block_header (raw_bin : string) : result (Z * Z) :=
  match index_bytes raw_bin 0 with
  | Raise e => Raise e
  | Ok b0 =>
      if value_neb (VInt b0) (VBytes "#") then Raise (Exception missing_header)
      else
        match index_bytes raw_bin 1 with
        | Raise e => Raise e
        | Ok b1 =>
            let header_width := b1 + 2 in
            match int (slice 2 (Z.to_nat header_width) raw_bin) with
            | Raise e => Raise e
            | Ok num_bytes => Ok (header_width, num_bytes)
            end
        end
  end.

(** Lines 87-93 of [get_data]: the header, then the items after it. *)
Definition decode_curve (raw_bin : string) : result (list Z) :=
  match block_header raw_bin with
  | Raise e => Raise e
  | Ok (header_width, num_bytes) =>
      frombuffer raw_bin header_width (num_bytes / 2)
  end.

Section TekScope.
Context {R : Type} `{Resource R} {F : Type} `{Float F} `{Registry F}.

(** [float(s)] *)
Definition float (s : string) : result F :=
  of_option ValueError (float_of_string s).

(** [u[name]] *)
Definition unit_named (name : string) : result string :=
  if defines name then Ok name else Raise (UndefinedUnitError name).

(** [Q_(s)] *)
Definition Q_ (s : string) : result (Quantity F) :=
  of_option ValueError (quantity_of_string s).

(** [(raw - offset)*scale + zero], item by item. *)
Definition scaled (raw : list Z) (offset scale zero : F) : list F :=
  map (fun v => fadd (fmul (fsub (of_int v) offset) scale) zero) raw.

Definition get_data (channel : Z) : M R (Quantity (list F) * Quantity (list F)) :=
  write ("data:source ch" ++ str_of_int channel) ;;
  nr_pt <- ask "wfmpre:nr_pt?" ;;
  _ <- lift (int nr_pt) ;;
  write "data:width 2" ;;
  write "data:encdg RIBinary" ;;
  write "data:start 1" ;;
  write ("data:stop " ++ str_of_int stop) ;;
  write "curve?" ;;
  raw_bin <- read_raw ;;
  r <- ask "wfmpre:xincr?" ;; x_scale <- lift (float r) ;;
  r <- ask "wfmpre:ymult?" ;; y_scale <- lift (float r) ;;
  r <- ask "wfmpre:xzero?" ;; x_zero <- lift (float r) ;;
  r <- ask "wfmpre:yzero?" ;; y_zero <- lift (float r) ;;
  r <- ask "wfmpre:pt_off?" ;; x_offset <- lift (float r) ;;
  r <- ask "wfmpre:yoff?" ;; y_offset <- lift (float r) ;;
  r <- ask "wfmpre:xunit?" ;; let x_unit := slice_1_m1 r in
  r <- ask "wfmpre:yunit?" ;; let y_unit := slice_1_m1 r in
  let raw_data_x := arange 1 (stop + 1) in
  raw_data_y <- lift (decode_curve raw_bin) ;;
  ux <- lift (unit_named x_unit) ;;
  let data_x := mkQuantity (scaled raw_data_x x_offset x_scale x_zero) ux in
  uy <- lift (unit_named y_unit) ;;
  let data_y := mkQuantity (scaled raw_data_y y_offset y_scale y_zero) uy in
  ret (data_x, data_y).

Definition set_measurement_params (num : Z) (mtype : string) (channel : Z) : M R unit :=
  let prefix := "measurement:meas" ++ str_of_int num in
  write (prefix ++ ":type " ++ mtype ++ ";source ch" ++ str_of_int channel).

Definition are_measurement_stats_on : M R bool :=
  res <- ask "measu:statistics:mode?" ;;
  ret (negb (mem res ["OFF"; "0"])).

(** A field of the statistics dict: five quantities and one count. *)
Inductive stat : Type :=
| Measured (q : Quantity F)
| Count (n : Z).

Fixpoint quantities (kvs : list (string * string)) (units : string)
  : result (list (string * stat)) :=
  match kvs with
  | [] => Ok []
  | (k, rval) :: rest =>
      match Q_ (rval ++ units) with
      | Raise e => Raise e
      | Ok q =>
          match quantities rest units with
          | Raise e => Raise e
          | Ok d => Ok ((k, Measured q) :: d)
          end
      end
  end.

Definition read_measurement_stats (num : Z) : M R (list (string * stat)) :=
  let prefix := "measurement:meas" ++ str_of_int num ++ ":" in
  on <- are_measurement_stats_on ;;
  if negb on then raise (Exception stats_off)
  else
    let keys := ["value"; "mean"; "stddev"; "minimum"; "maximum"] in
    r <- ask (prefix ++ "value?;mean?;stddev?;minimum?;maximum?;units?") ;;
    let res := split ";" r in
    let units := strip_char dquote (last res EmptyString) in
    let res := List.removelast res in
    stats <- lift (quantities (combine keys res) units) ;;
    r <- ask "measurement:statistics:weighting?" ;;
    num_samples <- lift (int r) ;;
    ret (stats ++ [("nsamps", Count num_samples)])%list.

Definition read_measurement_value (num : Z) : M R (Quantity F) :=
  let prefix := "measurement:meas" ++ str_of_int num ++ ":" in
  r <- ask (prefix ++ ":value?;units?") ;;
  match split ";" r with
  | [raw_value; raw_units] =>
      let units := strip_char dquote raw_units in
      lift (Q_ (raw_value ++ units))
  | _ => raise ValueError
  end.

Definition run_acquire : M R unit := write "acquire:state run".

Definition stop_acquire : M R unit := write "acquire:state stop".

Definition enable_measurement_stats (enable : bool) : M R unit :=
  write ("measu:statistics:mode " ++ (if enable then "ALL" else "OFF")).

Definition disable_measurement_stats : M R unit :=
  enable_measurement_stats false.

Definition set_measurement_nsamps (nsamps : Z) : M R unit :=
  write ("measu:stati:weighting " ++ str_of_int nsamps).

(** Method resolution for the two model classes: every method is the
    one [TekScope] defines. *)
Definition enable_measurement_stats_of (m : model) : bool -> M R unit :=
  match m with
  | TDS_3000 => enable_measurement_stats
  | MSO_DPO_4000 => enable_measurement_stats
  end.

Definition disable_measurement_stats_of (m : model) : M R unit :=
  match m with
  | TDS_3000 => disable_measurement_stats
  | MSO_DPO_4000 => disable_measurement_stats
  end.

Definition are_measurement_stats_on_of (m : model) : M R bool :=
  match m with
  | TDS_3000 => are_measurement_stats_on
  | MSO_DPO_4000 => are_measurement_stats_on
  end.
End TekScope.

End Tektronix.

(* ===================================================================== *)
(** ** [drivers/powermeters/newport.py]                                   *)
(* ===================================================================== *)

Module Newport_1830_C.
Import Py Visa Num.
Local Open Scope drv_scope.

(** Status byte codes *)
Definition _PARAM_ERROR : Z := 1.
Definition _COMMAND_ERROR : Z := 2.
Definition _SATURATED : Z := 4.
Definition _OUT_OF_RANGE : Z := 8.
Definition _MSG_AVAILABLE : Z := 16.
Definition _BUSY : Z := 32.
Definition _SERVICE_REQUEST : Z := 64.
Definition _READY_READING : Z := 128.

(** [bool(n)] for an [int] *)
Definition truthy (n : Z) : bool := negb (n =? 0).

(** The body of [is_measurement_valid] once the status byte is read. *)
Definition valid_status (reg : Z) : bool :=
  let is_saturated := truthy (Z.land reg _SATURATED) in
  let is_over_range := truthy (Z.land reg _OUT_OF_RANGE) in
  let is_busy := truthy (Z.land reg _BUSY) in
  negb (is_saturated || is_over_range || is_busy).

Definition units_error : string :=
  "`units` must be one of 'watts', 'dbm', 'db', or 'rel".

Section Meter.
Context {R : Type} `{Resource R} {F : Type} `{Float F}.

(** Modelled from the spec: [VisaMixin.write] and [VisaMixin.query] of
    drivers/__init__.py, which is not among the sources.  The message,
    with its arguments formatted in, is one command sent to the device;
    [query] then reads one line. *)
Definition mixin_write (message : string) : M R unit := write message.

Definition mixin_query (message : string) : M R string := ask message.

(** Modelled from the spec: [MyFacet(msg, readonly=True)], a
    [MessageFacet] of drivers/__init__.py with [convert=int]: a read sends
    [msg?], reads one line and decodes it as an integer; nothing is
    cached. *)
Definition facet_get (msg : string) : M R Z :=
  r <- mixin_query (msg ++ "?") ;;
  lift (int r).

Definition status_byte : M R Z := facet_get "Q".

Definition get_status_byte : M R Z := status_byte.

(** The getter under [@Facet(units='W', cached=False)]. *)
Definition power_getter : M R (Quantity F) :=
  original_units <- mixin_query "U?" ;;
  if negb (String.eqb original_units "1") then
    mixin_write "U1" ;;
    r <- mixin_query "D?" ;;
    power <- lift (of_option ValueError (float_of_string r)) ;;
    mixin_write ("U" ++ original_units) ;;
    ret (mkQuantity power "watts")
  else
    r <- mixin_query "D?" ;;
    power <- lift (of_option ValueError (float_of_string r)) ;;
    ret (mkQuantity power "watts").

(** Modelled from the spec: the [Facet] decorator of drivers/__init__.py
    with [units='W'] and [cached=False]: every read runs the getter anew
    and hands on its value, a quantity in watts already. *)
Definition power : M R (Quantity F) := power_getter.

Definition is_measurement_valid : M R bool :=
  reg <- get_status_byte ;;
  ret (valid_status reg).

Definition valid_units : list (string * Z) :=
  [("watts", 1); ("dbm", 2); ("db", 3); ("rel", 4)].

Definition set_units (units : string) : M R unit :=
  let units := lower units in
  match str_lookup units valid_units with
  | None => raise (Exception units_error)
  | Some code => mixin_write ("U" ++ str_of_int code)
  end.

Definition units_names : list (Z * string) :=
  [(1, "watts"); (2, "db"); (3, "dbm"); (4, "rel")].

Definition get_units : M R string :=
  r <- mixin_query "U?" ;;
  val <- lift (int r) ;;
  match lookup Z.eqb val units_names with
  | Some units => ret units
  | None => raise (KeyError (str_of_int val))
  end.
End Meter.

End Newport_1830_C.

Module Newport_2936_R.
Import Py Visa Num.
Local Open Scope drv_scope.

Definition valid_units : list (string * Z) :=
  [("amps", 0); ("volts", 1); ("watts", 2); ("watts_cm2", 3);
   ("joules", 4); ("joules_cm2", 5); ("dbm", 6)].

Definition valid_modes : list (string * Z) :=
  [("None", 0); ("250khz", 1); ("12.5khz", 2); ("1khz", 3); ("5hz", 4)].

Definition valid_auto : list (key * Z) :=
  [(KBool true, 1); (KBool false, 0)].

Section Meter.
Context {R : Type} `{Resource R}.

(** [write]: the message and a line feed go to the resource (the pause
    before it is not modelled). *)
Definition write (message : string) : M R unit := Visa.write (message ++ LF).

Definition set_channel (channel : Z) : M R unit :=
  write ("pm:channel " ++ str_of_int channel).

Definition set_units (units : string) (channel : Z) : M R unit :=
  set_channel channel ;;
  code <- lift (of_option (KeyError (lower units))
                  (str_lookup (lower units) valid_units)) ;;
  write ("pm:units " ++ str_of_int code).

Definition set_analogfilter (mode : string) (channel : Z) : M R unit :=
  set_channel channel ;;
  code <- lift (of_option (KeyError (lower mode))
                  (str_lookup (lower mode) valid_modes)) ;;
  write ("pm:analogfilter " ++ str_of_int code).

Definition set_digitalfilter (num : Z) (channel : Z) : M R unit :=
  if negb ((0 <=? num) && (num <=? 10000)) then raise AssertionError
  else
    set_channel channel ;;
    write ("pm:digitalfilter " ++ str_of_int num).

Definition set_autoranging (auto : key) (channel : Z) : M R unit :=
  set_channel channel ;;
  code <- lift (of_option (KeyError (repr_key auto))
                  (lookup key_eqb auto valid_auto)) ;;
  write ("pm:auto " ++ str_of_int code).

Definition set_range (value : Z) (channel : Z) : M R unit :=
  if negb ((0 <=? value) && (value <=? 7)) then raise AssertionError
  else
    set_channel channel ;;
    write ("pm:range " ++ str_of_int value).
End Meter.

End Newport_2936_R.

(* ===================================================================== *)
(** ** Decimal literals                                                   *)
(* ===================================================================== *)

Module Literal.
Import Py Num.

Fixpoint split_first (p : ascii -> bool) (s : string) : string * option string :=
  match s with
  | EmptyString => (EmptyString, None)
  | String c s' =>
      if p c then (EmptyString, Some s')
      else let (a, b) := split_first p s' in (String c a, b)
  end.

(** The longest prefix of [s] whose characters satisfy [p], and the
    rest. *)
Fixpoint span (p : ascii -> bool) (s : string) : string * string :=
  match s with
  | EmptyString => (EmptyString, EmptyString)
  | String c s' =>
      if p c then let (a, b) := span p s' in (String c a, b)
      else (EmptyString, s)
  end.

Definition signed (s : string) : bool * string :=
  match s with
  | String "-" r => (true, r)
  | String "+" r => (false, r)
  | _ => (false, s)
  end.

Definition is_e (c : ascii) : bool := Ascii.eqb c "e" || Ascii.eqb c "E".

(** The number of digits of [s], underscores apart. *)
Definition digit_count (s : string) : Z :=
  Z.of_nat (List.length (filter is_digit (list_ascii_of_string s))).

(** A group of digits that may be left out. *)
Definition digits_or_none (s : string) : option Z :=
  match s with
  | EmptyString => Some 0
  | _ => unsigned_value s
  end.

(** A decimal literal as [float(s)] reads it: surrounding whitespace, a
    sign, digits with an optional point, at least one digit before or
    after it, and an optional exponent; every group of digits may have
    single underscores between digits.  The result is the sign, the
    mantissa [m] and the exponent [e] of [m * 10^e]. *)
Definition decimal (s : string) : option (bool * Z * Z) :=
  let (neg, body) := signed (strip s) in
  let (mant, ex) := split_first is_e body in
  let (ip, fp) := split_first (Ascii.eqb ".") mant in
  let fp := match fp with Some f => f | None => EmptyString end in
  let exponent :=
    match ex with
    | None => Some 0
    | Some e =>
        let (eneg, edigits) := signed e in
        option_map (fun v => if eneg then - v else v) (unsigned_value edigits)
    end in
  if String.eqb ip EmptyString && String.eqb fp EmptyString then None
  else
    match digits_or_none ip, digits_or_none fp, exponent with
    | Some i, Some f, Some e =>
        Some (neg, i * 10 ^ digit_count fp + f, e - digit_count fp)
    | _, _, _ => None
    end.

(** The words [float(s)] reads besides numbers, in any case and after a
    sign: [Some true] for an infinity, [Some false] for a NaN. *)
Definition special (s : string) : option (bool * bool) :=
  let (neg, body) := signed (strip s) in
  let word := lower body in
  if String.eqb word "inf" || String.eqb word "infinity" then Some (neg, true)
  else if String.eqb word "nan" then Some (neg, false)
  else None.

(** The number at the head of an expression and what follows it, as the
    tokenizer cuts them: a sign, digits with an optional point, and an
    exponent where [e] or [E] is followed by digits, signed or not. *)
Definition is_number_char (c : ascii) : bool :=
  is_digit c || Ascii.eqb c "." || Ascii.eqb c "_".

Definition is_exponent_char (c : ascii) : bool :=
  is_digit c || Ascii.eqb c "_".

Definition sign_of (s : string) : string * string :=
  match s with
  | String "-" r => ("-", r)
  | String "+" r => ("+", r)
  | _ => (EmptyString, s)
  end.

Definition split_number (s : string) : string * string :=
  let (sign, body) := sign_of s in
  let (mant, rest) := span is_number_char body in
  match rest with
  | String c rest' =>
      if is_e c then
        let (esign, r) := sign_of rest' in
        let (edigits, name) := span is_exponent_char r in
        match edigits with
        | EmptyString => (sign ++ mant, rest)
        | _ => (sign ++ mant ++ String c (esign ++ edigits), name)
        end
      else (sign ++ mant, rest)
  | EmptyString => (sign ++ mant, rest)
  end.

(** Some of the units a registry defines, by their symbols, and the
    prefixes they take. *)
Definition symbols : list string :=
  ["V"; "s"; "S"; "W"; "A"; "Hz"; "m"; "ohm"].

Definition prefixes : list string :=
  [EmptyString; "p"; "n"; "u"; "m"; "k"; "M"; "G"].

Definition unit_names : list string :=
  flat_map (fun pre => map (append pre) symbols) prefixes.

(** A registry that defines the units of [unit_names] and reads a
    quantity as a number followed by the name of one of them, or by
    nothing for a number without dimension. *)
Definition registry {F : Type} (number : string -> option F) : Registry F := {|
  defines := fun name => existsb (String.eqb name) unit_names;
  quantity_of_string := fun s =>
    let (digits, rest) := split_number (strip s) in
    let name := strip rest in
    match number digits with
    | Some v =>
        if String.eqb name EmptyString then Some (mkQuantity v "dimensionless")
        else if existsb (String.eqb name) unit_names
             then Some (mkQuantity v name)
             else None
    | None => None
    end
|}.

End Literal.

(* ===================================================================== *)
(** ** IEEE 754 binary64: the arithmetic of Python and numpy              *)
(* ===================================================================== *)

Module Binary64.
Import Py Num.

(** An integer as a double, rounded to nearest, ties to even. *)
Definition of_Z (z : Z) : float :=
  SF2Prim (binary_normalize prec emax z 0 false).

(** [m * 10^e] for [0 <= m], rounded once to nearest, ties to even: the
    product for [0 <= e]; otherwise the quotient by [10^(-e)], taken
    with 64 bits and more and the place of its remainder. *)
Definition of_decimal (neg : bool) (m e : Z) : float :=
  if 0 <=? e then
    SF2Prim (binary_normalize prec emax
               (if neg then - (m * 10 ^ e) else m * 10 ^ e) 0 neg)
  else
    let d := 10 ^ (- e) in
    let s := Z.log2 d + 64 in
    let q := (m * 2 ^ s) / d in
    let r := (m * 2 ^ s) mod d in
    let loc := if r =? 0 then loc_Exact else loc_Inexact (2 * r ?= d) in
    SF2Prim (binary_round_aux prec emax neg q (- s) loc).

(** [float(s)] *)
Definition decimal (s : string) : option float :=
  match Literal.decimal s with
  | Some (neg, m, e) => Some (of_decimal neg m e)
  | None =>
      match Literal.special s with
      | Some (neg, true) =>
          Some (if neg then PrimFloat.neg_infinity else PrimFloat.infinity)
      | Some (_, false) => Some PrimFloat.nan
      | None => None
      end
  end.

#[global] Instance Float_binary64 : Float float := {
  of_int := of_Z;
  fadd := PrimFloat.add;
  fsub := PrimFloat.sub;
  fmul := PrimFloat.mul;
  float_of_string := decimal
}.

#[global] Instance Registry_binary64 : Registry float := Literal.registry decimal.

End Binary64.

(* ===================================================================== *)
(** ** Exact arithmetic: the operations on [Q]                            *)
(* ===================================================================== *)

Module Exact.
Import Py Num.

Definition pow10 (k : Z) : Q :=
  if 0 <=? k then inject_Z (10 ^ k) else 1 # Z.to_pos (10 ^ (- k)).

(** A decimal literal as the rational it writes; [Q] has no infinity
    and no NaN. *)
Definition decimal (s : string) : option Q :=
  match Literal.decimal s with
  | Some (neg, m, e) =>
      let v := (inject_Z m * pow10 e)%Q in
      Some (Qred (if neg then - v else v))
  | None => None
  end.

#[global] Instance Float_Q : Float Q := {
  of_int := inject_Z;
  fadd := fun a b => Qred (a + b);
  fsub := fun a b => Qred (a - b);
  fmul := fun a b => Qred (a * b);
  float_of_string := decimal
}.

#[global] Instance Registry_Q : Registry Q := Literal.registry decimal.

End Exact.

(* ===================================================================== *)
(** ** A table-driven instrument                                          *)
(* ===================================================================== *)

Module Mock.
Import Py Visa Numpy.

(** An instrument that answers each query from a table and keeps the
    value of the last set command: [answers] maps a query to its answer,
    [settings] maps the prefix of a set command to the query whose answer
    the command replaces, [block] is what a raw read returns, and
    [pending] is the answer to the last query written. *)
Record Device : Type := mkDevice {
  answers : list (string * string);
  settings : list (string * string);
  block : string;
  pending : string
}.

Fixpoint update (q v : string) (t : list (string * string)) : list (string * string) :=
  match t with
  | [] => [(q, v)]
  | (q', v') :: t' => if String.eqb q' q then (q, v) :: t' else (q', v') :: update q v t'
  end.

Fixpoint setting_of (msg : string) (l : list (string * string)) : option (string * string) :=
  match l with
  | [] => None
  | (pre, q) :: l' =>
      if startswith pre msg then Some (q, drop (String.length pre) msg)
      else setting_of msg l'
  end.

Definition dev_write (msg : string) (d : Device) : Device :=
  match str_lookup msg (answers d) with
  | Some a => mkDevice (answers d) (settings d) (block d) a
  | None =>
      match setting_of msg (settings d) with
      | Some (q, v) => mkDevice (update q v (answers d)) (settings d) (block d) (pending d)
      | None => d
      end
  end.

#[global] Instance Resource_Device : Resource Device := {
  rsrc_write := dev_write;
  rsrc_read := fun d => (pending d, d);
  rsrc_read_raw := fun d => (block d, d)
}.

Definition fresh (d : Device) : World Device := mkWorld d [].

(** An instrument that answers nothing. *)
Definition silent : Device := mkDevice [] [] EmptyString EmptyString.

(** A 1830-C in units mode [mode] showing [display]. *)
Definition meter (mode display : string) : Device :=
  mkDevice [("U?", mode); ("D?", display)] [("U", "U?")]
           EmptyString EmptyString.

(** A 1830-C whose status byte reads [status]. *)
Definition meter_status (status : string) : Device :=
  mkDevice [("Q?", status)] [] EmptyString EmptyString.

(** A definite-length block: marker, digit count, byte count, payload and
    the line feed that ends the response. *)
Definition curve_block (samples : list Z) : string :=
  let count := str_of_int (2 * Z.of_nat (List.length samples)) in
  "#" ++ str_of_int (Z.of_nat (String.length count)) ++ count
      ++ tobytes samples ++ LF.

(** A scope holding the waveform [samples], with x increment [xincr],
    the other scale factors one and the offsets zero, in statistics mode
    [mode]. *)
Definition scope_with (xincr : string) (samples : list Z) (mode : string) : Device :=
  mkDevice
    [("wfmpre:nr_pt?", str_of_int (Z.of_nat (List.length samples)));
     ("wfmpre:xincr?", xincr); ("wfmpre:ymult?", "1.0");
     ("wfmpre:xzero?", "0.0"); ("wfmpre:yzero?", "0.0");
     ("wfmpre:pt_off?", "0.0"); ("wfmpre:yoff?", "0.0");
     ("wfmpre:xunit?", quoted "S"); ("wfmpre:yunit?", quoted "V");
     ("measu:statistics:mode?", mode)]
    [("measu:statistics:mode ", "measu:statistics:mode?")]
    (curve_block samples) EmptyString.

Definition scope : list Z -> string -> Device := scope_with "1.0".

End Mock.

(* ===================================================================== *)
(** ** The vocabulary of the statements                                   *)
(* ===================================================================== *)

Module Terms.
Import Py Visa Num Numpy.

(** The masks of the five status bits that are not saturated,
    out-of-range or busy. *)
Definition informational_masks : list Z :=
  [Newport_1830_C._PARAM_ERROR; Newport_1830_C._COMMAND_ERROR;
   Newport_1830_C._MSG_AVAILABLE; Newport_1830_C._SERVICE_REQUEST;
   Newport_1830_C._READY_READING].

(** A string of ASCII digits and the number it writes in base 10. *)
Definition all_digits (s : string) : bool :=
  forallb is_digit (list_ascii_of_string s).

Definition decimal_value (s : string) : Z :=
  fold_left (fun acc c => 10 * acc + digit_value c) (list_ascii_of_string s) 0.

(** The values of dtype ['>i2']. *)
Definition int16 (v : Z) : Prop := -32768 <= v < 32768.

Section Devices.
Context {R : Type} `{Resource R}.

(** From [w] on, the meter answers [U?] with the code of the [U]
    command just written, for each of the four units codes. *)
Definition echoes_units (w : World R) : Prop :=
  forall code : Z, 1 <= code <= 4 ->
    reply "U?" (after_write ("U" ++ str_of_int code) w) = str_of_int code.

(** From [w] on, the scope answers the statistics-mode query with the
    token of the statistics-mode command just written. *)
Definition echoes_stats_mode (w : World R) : Prop :=
  forall token : string,
    reply "measu:statistics:mode?"
      (after_write ("measu:statistics:mode " ++ token) w) = token.

(** What the scope answers in the course of [get_data channel], and the
    world the exchange ends in. *)
Record Transcript : Type := mkTranscript {
  r_nr_pt : string;
  r_curve : string;
  r_xincr : string;
  r_ymult : string;
  r_xzero : string;
  r_yzero : string;
  r_pt_off : string;
  r_yoff : string;
  r_xunit : string;
  r_yunit : string;
  r_end : World R
}.

Definition transcript (channel : Z) (w : World R) : Transcript :=
  let w := after_write ("data:source ch" ++ str_of_int channel) w in
  let nr_pt := reply "wfmpre:nr_pt?" w in
  let w := after_ask "wfmpre:nr_pt?" w in
  let w := after_write "data:width 2" w in
  let w := after_write "data:encdg RIBinary" w in
  let w := after_write "data:start 1" w in
  let w := after_write ("data:stop " ++ str_of_int Tektronix.stop) w in
  let w := after_write "curve?" w in
  let curve := raw_block w in
  let w := after_read_raw w in
  let xincr := reply "wfmpre:xincr?" w in
  let w := after_ask "wfmpre:xincr?" w in
  let ymult := reply "wfmpre:ymult?" w in
  let w := after_ask "wfmpre:ymult?" w in
  let xzero := reply "wfmpre:xzero?" w in
  let w := after_ask "wfmpre:xzero?" w in
  let yzero := reply "wfmpre:yzero?" w in
  let w := after_ask "wfmpre:yzero?" w in
  let pt_off := reply "wfmpre:pt_off?" w in
  let w := after_ask "wfmpre:pt_off?" w in
  let yoff := reply "wfmpre:yoff?" w in
  let w := after_ask "wfmpre:yoff?" w in
  let xunit := reply "wfmpre:xunit?" w in
  let w := after_ask "wfmpre:xunit?" w in
  let yunit := reply "wfmpre:yunit?" w in
  let w := after_ask "wfmpre:yunit?" w in
  mkTranscript nr_pt curve xincr ymult xzero yzero pt_off yoff xunit yunit w.

End Devices.

End Terms.

(* ===================================================================== *)
(** ** [newport.py]: the other methods of the 1830-C                      *)
(* ===================================================================== *)

Module Newport_1830_C_panel.
Import Py Visa Num Newport_1830_C.
Local Open Scope drv_scope.

(** Filter averaging constants *)
Definition SLOW_FILTER : Z := 1.
Definition MEDIUM_FILTER : Z := 2.
Definition NO_FILTER : Z := 3.

(** [int(b)] for a [bool] *)
Definition int_of_bool (b : bool) : Z := if b then 1 else 0.

(** [bool(s)] for a [str] *)
Definition truthy_str (s : string) : bool := negb (String.eqb s EmptyString).

Section Panel.
Context {R : Type} `{Resource R} {F : Type} `{Float F}.

(** [try: m  except: h]: every exception of [m] is handled by [h], in
    the world [m] left. *)
Definition try_except {A} (m : M R A) (h : M R A) : M R A :=
  fun w =>
    match m w with
    | (Ok a, w') => (Ok a, w')
    | (Raise _, w') => h w'
    end.

(** [_check_visa_support]: the class name when the answer to [Z?] reads
    as 0 or 1, and [None] otherwise or when anything is raised (the
    timeout context around it is not modelled). *)
Definition _check_visa_support : M R (option string) :=
  try_except
    (r <- ask "Z?" ;;
     n <- lift (int r) ;;
     if (n =? 0) || (n =? 1) then ret (Some "Newport_1830_C") else ret None)
    (ret None).

(** Modelled from the spec: the setter of [MyFacet(msg)], a
    [MessageFacet] of drivers/__init__.py with the set message
    [msg + '{}'] and [convert=int]: a write of [msg] followed by the
    value. *)
Definition facet_set (msg : string) (value : Z) : M R unit :=
  mixin_write (msg ++ str_of_int value).

(** [range = MyFacet('R', ...)] *)
Definition range_get : M R Z := facet_get "R".

Definition range_set (value : Z) : M R unit := facet_set "R" value.

Definition set_range (range_num : Z) : M R unit := range_set range_num.

Definition get_range : M R Z := range_get.

Definition enable_auto_range : M R unit := set_range 0.

Definition disable_auto_range : M R unit :=
  cur_range <- get_range ;;
  set_range cur_range.

Definition get_power : M R (Quantity F) := power.

Definition enable_attenuator (enabled : bool) : M R unit :=
  mixin_write ("A" ++ str_of_int (int_of_bool enabled)).

Definition disable_attenuator : M R unit := enable_attenuator false.

(** [val = self.write('A?'); return bool(val)]: [write] returns [None]
    (see [mixin_write]), and [bool(None)] is [False]. *)
Definition attenuator_enabled : M R bool :=
  mixin_write "A?" ;;
  ret false.

Definition set_slow_filter : M R unit := mixin_write "F1".

Definition set_medium_filter : M R unit := mixin_write "F2".

Definition set_no_filter : M R unit := mixin_write "F3".

Definition get_filter : M R Z :=
  val <- mixin_query "F?" ;;
  lift (int val).

Definition enable_hold (enable : bool) : M R unit :=
  mixin_write ("G" ++ str_of_int (int_of_bool (negb enable))).

Definition disable_hold : M R unit := enable_hold false.

Definition hold_enabled : M R bool :=
  r <- mixin_query "G?" ;;
  val <- lift (int r) ;;
  ret (val =? 0).

Definition store_reference : M R unit := mixin_write "S".

Definition enable_zero (enable : bool) : M R unit :=
  mixin_write ("Z" ++ str_of_int (int_of_bool enable)).

Definition disable_zero : M R unit := enable_zero false.

Definition zero_enabled : M R bool :=
  r <- mixin_query "Z?" ;;
  val <- lift (int r) ;;
  ret (truthy val).

(** The property [local_lockout]: its getter and its setter. *)
Definition local_lockout : M R bool :=
  r <- mixin_query "L?" ;;
  ret (truthy_str r).

Definition local_lockout_set (enable : bool) : M R unit :=
  mixin_write ("L" ++ str_of_int (int_of_bool enable)).

Definition close : M R unit := local_lockout_set false.
End Panel.

End Newport_1830_C_panel.

(* ===================================================================== *)
(** ** [newport.py]: the byte-at-a-time reads of the 2936-R               *)
(* ===================================================================== *)

Module Newport_2936_R_bytes.
Import Py Visa Num Newport_2936_R.

(** [read_bytes(1)] of the resource: one byte, or [None] for the
    [VisaIOError] of a timeout. *)
Class Bytes (R : Type) : Type := {
  rsrc_read_bytes_1 : R -> option ascii * R
}.

(** A method with a loop: [None] when [fuel] iterations did not end it. *)
Definition MF (R A : Type) : Type := World R -> option (result A * World R).

Definition bindF {R A B} (m : MF R A) (k : A -> MF R B) : MF R B :=
  fun w =>
    match m w with
    | Some (Ok a, w') => k a w'
    | Some (Raise e, w') => Some (Raise e, w')
    | None => None
    end.

Definition liftF {R A} (m : M R A) : MF R A := fun w => Some (m w).

Definition is_crlf (c : ascii) : bool := (code c =? 13) || (code c =? 10).

(** [b.decode("utf-8").strip("\r\n")] for the one byte [b]: a byte above
    127 is no UTF-8 text by itself ([UnicodeDecodeError], a
    [ValueError]). *)
Definition decode_strip (b : ascii) : result string :=
  if code b <? 128 then Ok (strip_by is_crlf (String b EmptyString))
  else Raise ValueError.

Section Polling.
Context {R : Type} `{Resource R} `{Bytes R} {F : Type} `{Float F}.

(** The world after one [read_bytes(1)]. *)
Definition after_byte (w : World R) : World R :=
  mkWorld (snd (rsrc_read_bytes_1 (dev w))) (sent w).

(** [read]: a timeout is tried again, the first byte is returned. *)
Fixpoint read (fuel : nat) : MF R string :=
  fun w =>
    match fuel with
    | O => None
    | S fuel' =>
        match fst (rsrc_read_bytes_1 (dev w)) with
        | Some b => Some (decode_strip b, after_byte w)
        | None => read fuel' (after_byte w)
        end
    end.

(** [flush_read]: bytes are read and dropped until a timeout. *)
Fixpoint flush_read (fuel : nat) : MF R unit :=
  fun w =>
    match fuel with
    | O => None
    | S fuel' =>
        match fst (rsrc_read_bytes_1 (dev w)) with
        | Some _ => flush_read fuel' (after_byte w)
        | None => Some (Ok tt, after_byte w)
        end
    end.

Definition query (fuel : nat) (message : string) : MF R string :=
  bindF (liftF (write message)) (fun _ => read fuel).

Definition get_power (fuel : nat) (channel : Z) : MF R F :=
  bindF (liftF (set_channel channel)) (fun _ =>
  bindF (query fuel "pm:power?") (fun r =>
  liftF (lift (of_option ValueError (float_of_string r))))).

(** [_initialize]; [set_units] is called with its default channel 1. *)
Definition _initialize (fuel : nat) : MF R unit :=
  bindF (flush_read fuel) (fun _ =>
  bindF (liftF (set_channel 1)) (fun _ =>
  bindF (liftF (set_units "watts" 1)) (fun _ =>
  bindF (liftF (set_channel 2)) (fun _ =>
  liftF (set_units "watts" 1))))).
End Polling.

End Newport_2936_R_bytes.

(* ===================================================================== *)
(** ** More instruments for concrete runs                                 *)
(* ===================================================================== *)

Module Bench.
Import Py Visa Numpy Newport_2936_R_bytes.

(** An instrument with one setting: [cmd] followed by a value sets it,
    [cmd?] asks for it. *)
Definition register (cmd value : string) : Mock.Device :=
  Mock.mkDevice [(cmd ++ "?", value)] [(cmd, cmd ++ "?")] EmptyString EmptyString.

(** A scope with statistics in mode [mode] that answers the combined
    query of slot 1 with [stats], the single-value query with [value]
    and the weighting query with [weighting]. *)
Definition scope_stats (mode stats value weighting : string) : Mock.Device :=
  Mock.mkDevice
    [("measu:statistics:mode?", mode);
     ("measurement:meas1:value?;mean?;stddev?;minimum?;maximum?;units?", stats);
     ("measurement:meas1::value?;units?", value);
     ("measurement:statistics:weighting?", weighting)]
    [("measu:statistics:mode ", "measu:statistics:mode?")]
    EmptyString EmptyString.

(** A scope holding the waveform [samples] that reports the point count
    [nr_pt], with unit scale factors and zero offsets. *)
Definition scope_reporting (nr_pt : string) (samples : list Z) : Mock.Device :=
  Mock.mkDevice
    [("wfmpre:nr_pt?", nr_pt);
     ("wfmpre:xincr?", "1.0"); ("wfmpre:ymult?", "1.0");
     ("wfmpre:xzero?", "0.0"); ("wfmpre:yzero?", "0.0");
     ("wfmpre:pt_off?", "0.0"); ("wfmpre:yoff?", "0.0");
     ("wfmpre:xunit?", quoted "s"); ("wfmpre:yunit?", quoted "V")]
    [] (Mock.curve_block samples) EmptyString.

(** A scope that answers [curve?] with the block [block], and reports
    unit scale factors and zero offsets. *)
Definition scope_sending (block : string) : Mock.Device :=
  Mock.mkDevice
    [("wfmpre:nr_pt?", "10000");
     ("wfmpre:xincr?", "1.0"); ("wfmpre:ymult?", "1.0");
     ("wfmpre:xzero?", "0.0"); ("wfmpre:yzero?", "0.0");
     ("wfmpre:pt_off?", "0.0"); ("wfmpre:yoff?", "0.0");
     ("wfmpre:xunit?", quoted "s"); ("wfmpre:yunit?", quoted "V")]
    [] block EmptyString.

(** A serial line: what each coming [read_bytes(1)] gives, a byte or a
    timeout; when the list is used up every read times out. *)
Record Wire : Type := mkWire {
  incoming : list (option ascii)
}.

#[global] Instance Resource_Wire : Resource Wire := {
  rsrc_write := fun _ d => d;
  rsrc_read := fun d => (EmptyString, d);
  rsrc_read_raw := fun d => (EmptyString, d)
}.

#[global] Instance Bytes_Wire : Bytes Wire := {
  rsrc_read_bytes_1 := fun d =>
    match incoming d with
    | [] => (None, d)
    | e :: rest => (e, mkWire rest)
    end
}.

(** The bytes of [s] arriving one per read. *)
Definition arriving (s : string) : list (option ascii) :=
  map Some (list_ascii_of_string s).

(** A line that has a byte ready at every read. *)
Inductive Chatter : Type := chatter.

#[global] Instance Resource_Chatter : Resource Chatter := {
  rsrc_write := fun _ d => d;
  rsrc_read := fun d => (EmptyString, d);
  rsrc_read_raw := fun d => (EmptyString, d)
}.

#[global] Instance Bytes_Chatter : Bytes Chatter := {
  rsrc_read_bytes_1 := fun d => (Some "0"%char, d)
}.

End Bench.

(* ===================================================================== *)
(** ** More vocabulary                                                    *)
(* ===================================================================== *)

Module Terms_more.
Import Py Visa Num Numpy Terms Newport_2936_R_bytes.

(** No character of [s] is whitespace. *)
Definition no_space (s : string) : bool :=
  forallb (fun c => negb (is_space c)) (list_ascii_of_string s).

(** No character of [s] satisfies [p]; the character [c] does not occur
    in [s]. *)
Definition none (p : ascii -> bool) (s : string) : bool :=
  forallb (fun c => negb (p c)) (list_ascii_of_string s).

Definition lacks (c : ascii) (s : string) : bool :=
  none (fun c' => Ascii.eqb c' c) s.

(** [sep.join(l)] for a one-character separator. *)
Fixpoint join (sep : ascii) (l : list string) : string :=
  match l with
  | [] => EmptyString
  | [s] => s
  | s :: rest => s ++ String sep (join sep rest)
  end.

(** The model an identification names, if [_instrument] supports it. *)
Definition supported (name : string) (m : Tektronix.model) : Prop :=
  (m = Tektronix.TDS_3000 /\ In name Tektronix._tds_3000_models)
  \/ (m = Tektronix.MSO_DPO_4000 /\ In name Tektronix._mso_dpo_4000_models).

(** The messages of one [get_data channel], in the order written. *)
Definition get_data_messages (channel : Z) : list string :=
  ["data:source ch" ++ str_of_int channel; "wfmpre:nr_pt?"; "data:width 2";
   "data:encdg RIBinary"; "data:start 1"; "data:stop 10000"; "curve?";
   "wfmpre:xincr?"; "wfmpre:ymult?"; "wfmpre:xzero?"; "wfmpre:yzero?";
   "wfmpre:pt_off?"; "wfmpre:yoff?"; "wfmpre:xunit?"; "wfmpre:yunit?"].

(** The keys of the statistics dict, without [nsamps]. *)
Definition stats_keys : list string :=
  ["value"; "mean"; "stddev"; "minimum"; "maximum"].

Section Devices_more.
Context {R : Type} `{Resource R}.

(** From [w] on, the instrument answers [cmd?] with the number of the
    [cmd] command just written. *)
Definition echoes (cmd : string) (w : World R) : Prop :=
  forall n : Z,
    reply (cmd ++ "?") (after_write (cmd ++ str_of_int n) w) = str_of_int n.

(** What [get_data] makes of the ten answers of a transcript: the
    parses in the order of the code, then the decode and the units. *)
Definition waveform {F : Type} `{Float F} `{Registry F} (t : @Transcript R)
  : result (Quantity (list F) * Quantity (list F)) :=
  match int (r_nr_pt t) with
  | Raise e => Raise e
  | Ok _ =>
  match Tektronix.float (r_xincr t) with
  | Raise e => Raise e
  | Ok x_scale =>
  match Tektronix.float (r_ymult t) with
  | Raise e => Raise e
  | Ok y_scale =>
  match Tektronix.float (r_xzero t) with
  | Raise e => Raise e
  | Ok x_zero =>
  match Tektronix.float (r_yzero t) with
  | Raise e => Raise e
  | Ok y_zero =>
  match Tektronix.float (r_pt_off t) with
  | Raise e => Raise e
  | Ok x_offset =>
  match Tektronix.float (r_yoff t) with
  | Raise e => Raise e
  | Ok y_offset =>
  match Tektronix.decode_curve (r_curve t) with
  | Raise e => Raise e
  | Ok raw_y =>
  match Tektronix.unit_named (slice_1_m1 (r_xunit t)) with
  | Raise e => Raise e
  | Ok ux =>
  match Tektronix.unit_named (slice_1_m1 (r_yunit t)) with
  | Raise e => Raise e
  | Ok uy =>
      Ok (mkQuantity
            (Tektronix.scaled (arange 1 (Tektronix.stop + 1))
               x_offset x_scale x_zero) ux,
          mkQuantity (Tektronix.scaled raw_y y_offset y_scale y_zero) uy)
  end end end end end end end end end end.

Context `{Bytes R}.

(** The world after [k] calls of [read_bytes(1)], and what the next
    call gives. *)
Fixpoint after_bytes (k : nat) (w : World R) : World R :=
  match k with
  | O => w
  | S k' => after_bytes k' (after_byte w)
  end.

Definition byte_at (k : nat) (w : World R) : option ascii :=
  fst (rsrc_read_bytes_1 (dev (after_bytes k w))).
End Devices_more.

End Terms_more.

(* ===================================================================== *)
(** * Properties                                                          *)
(* ===================================================================== *)

Import Py Visa Num Numpy Terms Terms_more.

(** ** The driver monad *)

Section Monad_facts.
Context {R A B : Type}.

Lemma bind_ok (m : M R A) (k : A -> M R B) w a w' :
  m w = (Ok a, w') -> bind m k w = k a w'.
Proof. intros E. unfold bind. now rewrite E. Qed.

Lemma bind_raise (m : M R A) (k : A -> M R B) w e w' :
  m w = (Raise e, w') -> bind m k w = (Raise e, w').
Proof. intros E. unfold bind. now rewrite E. Qed.

Lemma bind_ok_inv (m : M R A) (k : A -> M R B) w b w'' :
  bind m k w = (Ok b, w'') ->
  exists a w', m w = (Ok a, w') /\ k a w' = (Ok b, w'').
Proof.
  unfold bind. destruct (m w) as [[a|e] w'] eqn:E; intros Hk.
  - now exists a, w'.
  - discriminate Hk.
Qed.

Lemma lift_ok_inv (r : result A) (w w' : World R) a :
  lift r w = (Ok a, w') -> r = Ok a /\ w' = w.
Proof. unfold lift. intros E. inversion E. now split. Qed.

Lemma ret_run (a : A) (w : World R) : ret a w = (Ok a, w).
Proof. reflexivity. Qed.

Lemma bind_lift_ok (r : result A) a (k : A -> M R B) w :
  r = Ok a -> bind (lift r) k w = k a w.
Proof. now intros ->. Qed.

Lemma bind_lift_raise (r : result A) e (k : A -> M R B) (w : World R) :
  r = Raise e -> bind (lift r) k w = (Raise e, w).
Proof. now intros ->. Qed.

Lemma bind_raise_run e (k : A -> M R B) (w : World R) :
  bind (raise e) k w = (Raise e, w).
Proof. reflexivity. Qed.

Lemma bind_ret (a : A) (k : A -> M R B) (w : World R) : bind (ret a) k w = k a w.
Proof. reflexivity. Qed.

Lemma bind_bind {C} (m : M R A) (k : A -> M R B) (h : B -> M R C) w :
  bind (bind m k) h w = bind m (fun a => bind (k a) h) w.
Proof. unfold bind. now destruct (m w) as [[a|e] w']. Qed.
End Monad_facts.

Section Connection_facts.
Context {R : Type} `{Resource R} {B : Type}.

Lemma bind_write (msg : string) (k : unit -> M R B) w :
  bind (write msg) k w = k tt (after_write msg w).
Proof. reflexivity. Qed.

Lemma bind_ask (msg : string) (k : string -> M R B) w :
  bind (ask msg) k w = k (reply msg w) (after_ask msg w).
Proof. reflexivity. Qed.

Lemma bind_read_raw (k : string -> M R B) w :
  bind read_raw k w = k (raw_block w) (after_read_raw w).
Proof. reflexivity. Qed.
End Connection_facts.

(** ** Characters and strings *)

Lemma append_assoc (a b c : string) : (a ++ b) ++ c = a ++ (b ++ c).
Proof. induction a as [|x a IH]; simpl; [reflexivity | now rewrite IH]. Qed.

Lemma length_append (a b : string) :
  String.length (a ++ b) = (String.length a + String.length b)%nat.
Proof. induction a as [|x a IH]; simpl; [reflexivity | now rewrite IH]. Qed.

(** ** Slices *)

Lemma append_nil_r (s : string) : s ++ EmptyString = s.
Proof. induction s as [|c s IH]; simpl; [reflexivity | now rewrite IH]. Qed.

Lemma drop_append (a b : string) : drop (String.length a) (a ++ b) = b.
Proof. induction a as [|c a IH]; simpl; [reflexivity | exact IH]. Qed.

Lemma rev_append_twice (s a b : string) :
  rev_append (rev_append s a) b = rev_append a (s ++ b).
Proof.
  revert a b. induction s as [|c s IH]; intros a b; simpl; [reflexivity|].
  now rewrite IH.
Qed.

Lemma rev_involutive (s : string) : rev (rev s) = s.
Proof. unfold rev. rewrite rev_append_twice. simpl. apply append_nil_r. Qed.

(** ** Decimal digits *)

Lemma digit_not_space c : is_digit c = true -> is_space c = false.
Proof.
  unfold is_digit, is_space. intros Hd. apply andb_prop in Hd as [H1 H2].
  apply Z.leb_le in H1, H2.
  destruct (Z.eqb_spec (code c) 32); [lia|].
  destruct (Z.leb_spec 9 (code c)), (Z.leb_spec (code c) 13); cbn; solve [reflexivity | lia].
Qed.

Lemma all_digits_cons c s :
  all_digits (String c s) = is_digit c && all_digits s.
Proof. reflexivity. Qed.

Lemma all_digits_rev_append s a :
  all_digits (rev_append s a) = all_digits s && all_digits a.
Proof.
  revert a. induction s as [|c s IH]; intros a; simpl; [reflexivity|].
  rewrite IH, !all_digits_cons. now destruct (is_digit c), (all_digits s).
Qed.

Lemma lstrip_digits s : all_digits s = true -> lstrip_by is_space s = s.
Proof.
  destruct s as [|c s]; [reflexivity|].
  rewrite all_digits_cons. intros Hd. apply andb_prop in Hd as [Hc _].
  simpl. now rewrite (digit_not_space c Hc).
Qed.

Lemma strip_digits s : all_digits s = true -> strip s = s.
Proof.
  intros Hd. unfold strip, strip_by.
  rewrite (lstrip_digits s Hd), lstrip_digits; [apply rev_involutive|].
  unfold rev. rewrite all_digits_rev_append, Hd. reflexivity.
Qed.

Lemma digits_value_fold s acc :
  all_digits s = true ->
  digits_value acc s
  = Some (fold_left (fun a c => 10 * a + digit_value c) (list_ascii_of_string s) acc).
Proof.
  revert acc. induction s as [|c s IH]; intros acc; [reflexivity|].
  rewrite all_digits_cons. intros Hd. apply andb_prop in Hd as [Hc Hs].
  simpl. rewrite Hc. now apply IH.
Qed.

Lemma unsigned_value_digits s :
  all_digits s = true -> s <> EmptyString ->
  unsigned_value s = Some (decimal_value s).
Proof.
  intros Hd Hne. destruct s as [|c s]; [contradiction|].
  pose proof Hd as Hc. rewrite all_digits_cons in Hc.
  apply andb_prop in Hc as [Hc _].
  unfold unsigned_value. rewrite Hc. exact (digits_value_fold _ 0 Hd).
Qed.

Lemma digit_not_sign c s :
  is_digit c = true ->
  signed_value (String c s) = unsigned_value (String c s).
Proof.
  destruct c as [[] [] [] [] [] [] [] []]; intros Hd; try discriminate Hd; reflexivity.
Qed.

Lemma int_digits s :
  all_digits s = true -> s <> EmptyString -> int s = Ok (decimal_value s).
Proof.
  intros Hd Hne. unfold int, int_of_string. rewrite (strip_digits s Hd).
  destruct s as [|c s]; [contradiction|].
  pose proof Hd as Hc. rewrite all_digits_cons in Hc. apply andb_prop in Hc as [Hc _].
  rewrite (digit_not_sign c s Hc).
  now rewrite (unsigned_value_digits _ Hd Hne).
Qed.

Lemma digit_value_range c : is_digit c = true -> 0 <= digit_value c <= 9.
Proof.
  unfold is_digit, digit_value. intros Hd. apply andb_prop in Hd as [H1 H2].
  apply Z.leb_le in H1, H2. lia.
Qed.

Lemma lower_char_not_upper c : is_upper (lower_char c) = false.
Proof. destruct c as [[] [] [] [] [] [] [] []]; reflexivity. Qed.

Lemma lower_head_not_upper s c s' : lower s = String c s' -> is_upper c = false.
Proof.
  destruct s as [|a t]; simpl; intros E; [discriminate|].
  injection E as <- _. apply lower_char_not_upper.
Qed.

(** ** Bits of the status byte *)

Lemma land_pow2 (a k : Z) :
  0 <= k -> Z.land a (2 ^ k) = if Z.testbit a k then 2 ^ k else 0.
Proof.
  intros Hk. apply Z.bits_inj'. intros n Hn.
  rewrite Z.land_spec.
  destruct (Z.eq_dec n k) as [->|Hne].
  - rewrite Z.pow2_bits_true by assumption.
    destruct (Z.testbit a k);
      [now rewrite Z.pow2_bits_true | now rewrite Z.bits_0].
  - rewrite Z.pow2_bits_false by congruence.
    rewrite andb_false_r.
    destruct (Z.testbit a k);
      [now rewrite Z.pow2_bits_false by congruence | now rewrite Z.bits_0].
Qed.

Lemma truthy_land_pow2 (a k : Z) :
  0 <= k -> Newport_1830_C.truthy (Z.land a (2 ^ k)) = Z.testbit a k.
Proof.
  intros Hk. rewrite land_pow2 by assumption. unfold Newport_1830_C.truthy.
  destruct (Z.testbit a k); [|reflexivity].
  assert (0 < 2 ^ k) by (apply Z.pow_pos_nonneg; lia).
  destruct (Z.eqb_spec (2 ^ k) 0); [lia | reflexivity].
Qed.

Lemma valid_status_testbit reg :
  Newport_1830_C.valid_status reg
  = negb (Z.testbit reg 2 || Z.testbit reg 3 || Z.testbit reg 5).
Proof.
  unfold Newport_1830_C.valid_status.
  change Newport_1830_C._SATURATED with (2 ^ 2).
  change Newport_1830_C._OUT_OF_RANGE with (2 ^ 3).
  change Newport_1830_C._BUSY with (2 ^ 5).
  now rewrite !truthy_land_pow2 by lia.
Qed.

Lemma testbit_lxor_pow2 (a k n : Z) :
  0 <= k -> 0 <= n -> n <> k -> Z.testbit (Z.lxor a (2 ^ k)) n = Z.testbit a n.
Proof.
  intros Hk Hn Hne. rewrite Z.lxor_spec, Z.pow2_bits_false by congruence.
  apply xorb_false_r.
Qed.

Lemma valid_status_flip reg m :
  In m informational_masks ->
  Newport_1830_C.valid_status (Z.lxor reg m) = Newport_1830_C.valid_status reg.
Proof.
  intros Hm. rewrite !valid_status_testbit.
  assert (Hk : exists k, m = 2 ^ k /\ 0 <= k /\ k <> 2 /\ k <> 3 /\ k <> 5).
  { simpl in Hm.
    destruct Hm as [<-|[<-|[<-|[<-|[<-|[]]]]]];
      [exists 0 | exists 1 | exists 4 | exists 6 | exists 7];
      repeat split; try lia; reflexivity. }
  destruct Hk as (k & -> & Hk & H2 & H3 & H5).
  now rewrite !testbit_lxor_pow2 by lia.
Qed.

Section Newport_1830_C_facts.
Context {R : Type} `{Resource R} {F : Type} `{Float F}.
Import Newport_1830_C.

(** C7.  Whatever status byte [reg] the meter reports to [Q?] (any
    integer, so every byte 0..255), [is_measurement_valid] asks for it
    once and returns [false] exactly when the bit of mask 4 (saturated),
    of mask 8 (out of range) or of mask 32 (busy) is set in it, and [true]
    otherwise; flipping any of the other five status bits leaves the
    answer as it is. *)
Theorem is_measurement_valid_bits (w : World R) (reg : Z) :
  int (reply "Q?" w) = Ok reg ->
  is_measurement_valid w
  = (Ok (negb (Z.testbit reg 2 || Z.testbit reg 3 || Z.testbit reg 5)),
     after_ask "Q?" w)
  /\ (valid_status reg = false <->
      Z.land reg 4 <> 0 \/ Z.land reg 8 <> 0 \/ Z.land reg 32 <> 0)
  /\ forall m, In m informational_masks ->
       valid_status (Z.lxor reg m) = valid_status reg.
Proof.
  intros Hreg. split; [|split].
  - rewrite <- valid_status_testbit.
    unfold is_measurement_valid, get_status_byte, status_byte, facet_get,
      mixin_query.
    cbn [append]. now rewrite bind_bind, bind_ask, (bind_lift_ok _ reg), ret_run.
  - unfold valid_status, truthy, _SATURATED, _OUT_OF_RANGE, _BUSY.
    destruct (Z.eqb_spec (Z.land reg 4) 0), (Z.eqb_spec (Z.land reg 8) 0),
      (Z.eqb_spec (Z.land reg 32) 0); cbn; intuition congruence.
  - intros m Hm. now apply valid_status_flip.
Qed.

(** C8.  When the meter answers ["1"] to [U?], reading [power] writes
    [U?] and [D?] and nothing else, and returns the displayed value in
    watts.  When it answers anything else, [power] writes [U1], reads the
    display, and then writes [U] followed by the original answer. *)
Theorem power_normalises_units (w : World R) :
  (reply "U?" w = "1" ->
   forall v, float_of_string (reply "D?" (after_ask "U?" w)) = Some v ->
     exists w', power w = (Ok (mkQuantity v "watts"), w')
                /\ newly_sent w w' ["U?"; "D?"])
  /\ (reply "U?" w <> "1" ->
      forall v,
        float_of_string
          (reply "D?" (after_write "U1" (after_ask "U?" w))) = Some v ->
        exists w', power w = (Ok (mkQuantity v "watts"), w')
                   /\ newly_sent w w' ["U?"; "U1"; "D?"; "U" ++ reply "U?" w]).
Proof.
  unfold power, power_getter, mixin_query, mixin_write.
  rewrite bind_ask. split.
  - intros Hmode v Hv. rewrite Hmode. cbn [String.eqb Ascii.eqb Bool.eqb negb].
    rewrite bind_ask, (bind_lift_ok _ v), ret_run by now rewrite Hv.
    eexists. split; [reflexivity|].
    unfold newly_sent. cbn. now rewrite <- app_assoc.
  - intros Hmode v Hv.
    destruct (String.eqb_spec (reply "U?" w) "1") as [E|_]; [contradiction|].
    cbn [negb].
    rewrite bind_write, bind_ask, (bind_lift_ok _ v), bind_write, ret_run
      by now rewrite Hv.
    eexists. split; [reflexivity|].
    unfold newly_sent. cbn. now rewrite <- !app_assoc.
Qed.
End Newport_1830_C_facts.

Lemma is_measurement_valid_bits_witness :
  int (reply "Q?" (Mock.fresh (Mock.meter_status "36"))) = Ok 36
  /\ fst (Newport_1830_C.is_measurement_valid
            (Mock.fresh (Mock.meter_status "36"))) = Ok false.
Proof.
  assert (Hq : int (reply "Q?" (Mock.fresh (Mock.meter_status "36"))) = Ok 36)
    by reflexivity.
  split; [exact Hq|].
  destruct (is_measurement_valid_bits _ 36 Hq) as [E _].
  now rewrite E.
Defined.

Lemma power_normalises_units_witness :
  (exists w',
     @Newport_1830_C.power Mock.Device _ float _
        (Mock.fresh (Mock.meter "1" "0.003"))
     = (Ok (mkQuantity 0x1.89374bc6a7efap-9%float "watts"), w')
     /\ sent w' = ["U?"; "D?"])
  /\ (exists w',
     @Newport_1830_C.power Mock.Device _ float _
        (Mock.fresh (Mock.meter "3" "0.003"))
     = (Ok (mkQuantity 0x1.89374bc6a7efap-9%float "watts"), w')
     /\ sent w' = ["U?"; "U1"; "D?"; "U3"]).
Proof.
  split.
  - apply (proj1 (@power_normalises_units Mock.Device _ float _
                    (Mock.fresh (Mock.meter "1" "0.003"))));
      reflexivity.
  - destruct (proj2 (@power_normalises_units Mock.Device _ float _
                       (Mock.fresh (Mock.meter "3" "0.003"))))
      with (v := 0x1.89374bc6a7efap-9%float) as (w' & E & Hsent);
      [discriminate | reflexivity |].
    exists w'. split; [exact E | exact Hsent].
Defined.

Section Newport_1830_C_units.
Context {R : Type} `{Resource R}.
Import Newport_1830_C.

(** C4.  Against a meter that echoes the last-set code, [set_units] then
    [get_units] gives back ['watts'] for ['watts'] and ['rel'] for ['REL']
    in any letter case, but ['db'] for ['dBm'] and ['dbm'] for ['dB']: the
    table of [get_units] has the codes 2 and 3 the other way round than
    the table of [set_units].  Every other string makes [set_units] raise
    its exception with nothing written. *)
Theorem set_units_then_get_units (w : World R) (units : string) :
  echoes_units w ->
  (lower units = "watts" ->
     fst (bind (set_units units) (fun _ => get_units) w) = Ok "watts")
  /\ (lower units = "rel" ->
     fst (bind (set_units units) (fun _ => get_units) w) = Ok "rel")
  /\ (lower units = "dbm" ->
     fst (bind (set_units units) (fun _ => get_units) w) = Ok "db")
  /\ (lower units = "db" ->
     fst (bind (set_units units) (fun _ => get_units) w) = Ok "dbm")
  /\ (lower units <> "watts" -> lower units <> "dbm" ->
      lower units <> "db" -> lower units <> "rel" ->
      set_units units w = (Raise (Exception units_error), w)).
Proof.
  intros Hecho.
  assert (Hrun : forall code name,
            1 <= code <= 4 ->
            int (str_of_int code) = Ok code ->
            lookup Z.eqb code units_names = Some name ->
            fst (bind (mixin_write ("U" ++ str_of_int code))
                   (fun _ => get_units) w)
            = Ok name).
  { intros code name Hcode Hint Hname.
    unfold mixin_write, get_units, mixin_query.
    rewrite bind_write, bind_ask, Hecho by assumption.
    rewrite (bind_lift_ok _ _ _ _ Hint).
    now rewrite Hname. }
  unfold set_units.
  repeat split; intros E; [rewrite E ..|].
  - now apply (Hrun 1); [lia | |].
  - now apply (Hrun 4); [lia | |].
  - now apply (Hrun 2); [lia | |].
  - now apply (Hrun 3); [lia | |].
  - intros Hdbm Hdb Hrel. unfold str_lookup, valid_units, lookup.
    destruct (String.eqb_spec "watts" (lower units)); [congruence|].
    destruct (String.eqb_spec "dbm" (lower units)); [congruence|].
    destruct (String.eqb_spec "db" (lower units)); [congruence|].
    destruct (String.eqb_spec "rel" (lower units)); [congruence|].
    reflexivity.
Qed.
End Newport_1830_C_units.

Lemma meter_echoes_units (mode display : string) :
  echoes_units (Mock.fresh (Mock.meter mode display)).
Proof.
  intros code Hcode.
  assert (E : code = 1 \/ code = 2 \/ code = 3 \/ code = 4) by lia.
  destruct E as [->|[->|[->| ->]]]; reflexivity.
Qed.

Lemma set_units_then_get_units_witness :
  echoes_units (Mock.fresh (Mock.meter "1" "0.003"))
  /\ fst (bind (Newport_1830_C.set_units "dBm")
            (fun _ => Newport_1830_C.get_units)
            (Mock.fresh (Mock.meter "1" "0.003"))) = Ok "db".
Proof.
  split; [apply meter_echoes_units|].
  apply (set_units_then_get_units _ "dBm" (meter_echoes_units "1" "0.003")).
  reflexivity.
Defined.

Section Newport_2936_R_facts.
Context {R : Type} `{Resource R}.
Import Newport_2936_R.

Lemma channel_first {A} (k : M R A) (channel : Z) (w : World R) :
  bind (set_channel channel) (fun _ => k) w
  = k (after_write ("pm:channel " ++ str_of_int channel ++ LF) w).
Proof.
  unfold set_channel, write. rewrite bind_write.
  now rewrite append_assoc.
Qed.

(** C5, as amended.  [set_digitalfilter] and [set_range] check their
    number first: outside 0..10000, respectively 0..7, they raise with
    nothing written.  [set_units], [set_analogfilter] and
    [set_autoranging] look their argument up only after the channel is
    selected: for an argument that is not a key of the table they raise
    [KeyError] when the channel-select command, and no other, has been
    written. *)
Theorem invalid_argument_2936 (w : World R) (channel : Z) :
  (forall num, ~ (0 <= num <= 10000) ->
     set_digitalfilter num channel w = (Raise AssertionError, w))
  /\ (forall value, ~ (0 <= value <= 7) ->
     set_range value channel w = (Raise AssertionError, w))
  /\ (forall units, str_lookup (lower units) valid_units = None ->
     set_units units channel w
     = (Raise (KeyError (lower units)),
        after_write ("pm:channel " ++ str_of_int channel ++ LF) w))
  /\ (forall mode, str_lookup (lower mode) valid_modes = None ->
     set_analogfilter mode channel w
     = (Raise (KeyError (lower mode)),
        after_write ("pm:channel " ++ str_of_int channel ++ LF) w))
  /\ (forall auto, lookup key_eqb auto valid_auto = None ->
     set_autoranging auto channel w
     = (Raise (KeyError (repr_key auto)),
        after_write ("pm:channel " ++ str_of_int channel ++ LF) w)).
Proof.
  repeat split.
  - intros num Hnum. unfold set_digitalfilter.
    destruct (Z.leb_spec 0 num), (Z.leb_spec num 10000);
      cbn [andb negb]; solve [reflexivity | lia].
  - intros value Hvalue. unfold set_range.
    destruct (Z.leb_spec 0 value), (Z.leb_spec value 7);
      cbn [andb negb]; solve [reflexivity | lia].
  - intros units E. unfold set_units.
    now rewrite channel_first, E.
  - intros mode E. unfold set_analogfilter.
    now rewrite channel_first, E.
  - intros auto E. unfold set_autoranging.
    now rewrite channel_first, E.
Qed.

Lemma lower_never_None (mode : string) : lower mode <> "None".
Proof.
  intros E. apply lower_head_not_upper in E. discriminate E.
Qed.

Lemma analogfilter_code (mode : string) (code : Z) :
  str_lookup (lower mode) valid_modes = Some code -> 1 <= code <= 4.
Proof.
  unfold str_lookup, valid_modes, lookup.
  destruct (String.eqb_spec "None" (lower mode)) as [E|_].
  { symmetry in E. now apply lower_never_None in E. }
  repeat match goal with
         | |- context [String.eqb ?a ?b] => destruct (String.eqb a b)
         end;
    intros E; inversion E; lia.
Qed.

(** C9.  For every channel, [set_analogfilter] with the documented mode
    ['None'] raises [KeyError] for the key ['none'], and it does so when
    the channel-select command has already been written: the table has
    the key ['None'], the lookup uses the lowercased mode.  No mode
    string at all maps to code 0, so [pm:analogfilter 0] is never among
    the messages this setter writes. *)
Theorem set_analogfilter_None (w : World R) (channel : Z) :
  set_analogfilter "None" channel w
  = (Raise (KeyError "none"),
     after_write ("pm:channel " ++ str_of_int channel ++ LF) w)
  /\ newly_sent w (snd (set_analogfilter "None" channel w))
       ["pm:channel " ++ str_of_int channel ++ LF]
  /\ (forall mode, str_lookup (lower mode) valid_modes <> Some 0)
  /\ (forall mode, exists msgs,
        newly_sent w (snd (set_analogfilter mode channel w)) msgs
        /\ ~ In ("pm:analogfilter 0" ++ LF) msgs).
Proof.
  assert (Hnone : set_analogfilter "None" channel w
                  = (Raise (KeyError "none"),
                     after_write ("pm:channel " ++ str_of_int channel ++ LF) w)).
  { unfold set_analogfilter. now rewrite channel_first. }
  split; [exact Hnone|]. split; [now rewrite Hnone|]. split.
  - intros mode E. apply analogfilter_code in E. lia.
  - intros mode. unfold set_analogfilter. rewrite channel_first.
    destruct (str_lookup (lower mode) valid_modes) as [code|] eqn:E.
    + rewrite (bind_lift_ok _ code) by reflexivity.
      exists ["pm:channel " ++ str_of_int channel ++ LF;
              "pm:analogfilter " ++ str_of_int code ++ LF].
      split.
      * unfold newly_sent, write, Visa.write. cbn [snd sent after_write].
        rewrite <- app_assoc. cbn [app].
        now rewrite (append_assoc "pm:analogfilter ").
      * apply analogfilter_code in E.
        assert (Hc : code = 1 \/ code = 2 \/ code = 3 \/ code = 4) by lia.
        destruct Hc as [->|[->|[->| ->]]];
          intros [Hin|[Hin|[]]]; discriminate Hin.
    + rewrite (bind_lift_raise _ (KeyError (lower mode))) by reflexivity.
      exists ["pm:channel " ++ str_of_int channel ++ LF].
      split; [reflexivity|].
      intros [Hin|[]]. discriminate Hin.
Qed.
End Newport_2936_R_facts.

Lemma invalid_argument_2936_witness :
  str_lookup (lower "Furlongs") Newport_2936_R.valid_units = None
  /\ Newport_2936_R.set_units "Furlongs" 1 (Mock.fresh Mock.silent)
     = (Raise (KeyError "furlongs"),
        after_write ("pm:channel 1" ++ LF)
          (Mock.fresh Mock.silent))
  /\ ~ (0 <= 8 <= 7)
  /\ Newport_2936_R.set_range 8 1 (Mock.fresh Mock.silent)
     = (Raise AssertionError, Mock.fresh Mock.silent).
Proof.
  destruct (invalid_argument_2936 (Mock.fresh Mock.silent) 1)
    as (_ & Hrange & Hunits & _).
  split; [reflexivity|]. split; [now apply Hunits|].
  split; [lia|]. apply Hrange. lia.
Defined.

(** C5 as stated fails: [set_units] of the 2936-R with a string outside
    its table raises, but the channel-select command has been written by
    then. *)
Lemma set_units_2936_writes_before_failing :
  exists e w',
    Newport_2936_R.set_units "Furlongs" 1 (Mock.fresh Mock.silent)
    = (Raise e, w')
    /\ sent w' = ["pm:channel 1" ++ LF]
    /\ sent w' <> sent (Mock.fresh Mock.silent).
Proof.
  eexists. eexists. split; [reflexivity|]. split; [reflexivity|].
  discriminate.
Qed.

Section Measurement_statistics.
Context {R : Type} `{Resource R} {F : Type} `{Registry F}.
Import Tektronix.

Lemma are_measurement_stats_on_run (w : World R) :
  are_measurement_stats_on w
  = (Ok (negb (mem (reply "measu:statistics:mode?" w) ["OFF"; "0"])),
     after_ask "measu:statistics:mode?" w).
Proof. reflexivity. Qed.

Lemma mem_off_zero (res : string) :
  mem res ["OFF"; "0"] = true <-> res = "OFF" \/ res = "0".
Proof.
  unfold mem. cbn [existsb].
  destruct (String.eqb_spec res "OFF"), (String.eqb_spec res "0");
    cbn; intuition congruence.
Qed.

(** The combined query of [read_measurement_stats num]. *)
Lemma stats_query_not_mode_query (num : Z) :
  ("measurement:meas" ++ str_of_int num ++ ":")
     ++ "value?;mean?;stddev?;minimum?;maximum?;units?"
  <> "measu:statistics:mode?".
Proof. discriminate. Qed.

(** C6.  For every slot number, when the scope answers the
    statistics-mode query with [OFF] or [0], [read_measurement_stats]
    raises its exception (it returns no dict), and the mode query is the
    only message it has written: the combined value query is not sent. *)
Theorem read_measurement_stats_off (num : Z) (w : World R) :
  reply "measu:statistics:mode?" w = "OFF"
  \/ reply "measu:statistics:mode?" w = "0" ->
  read_measurement_stats num w
  = (Raise (Exception stats_off), after_ask "measu:statistics:mode?" w)
  /\ forall msgs,
       newly_sent w (snd (read_measurement_stats num w)) msgs ->
       msgs = ["measu:statistics:mode?"]
       /\ ~ In (("measurement:meas" ++ str_of_int num ++ ":")
                 ++ "value?;mean?;stddev?;minimum?;maximum?;units?") msgs.
Proof.
  intros Hoff. apply mem_off_zero in Hoff.
  assert (E : read_measurement_stats num w
              = (Raise (Exception stats_off),
                 after_ask "measu:statistics:mode?" w)).
  { unfold read_measurement_stats.
    rewrite (bind_ok _ _ _ _ _ (are_measurement_stats_on_run w)), Hoff.
    reflexivity. }
  split; [exact E|].
  intros msgs Hsent. rewrite E in Hsent. unfold newly_sent in Hsent.
  cbn [snd sent after_ask] in Hsent. apply app_inv_head in Hsent.
  subst msgs. split; [reflexivity|].
  intros [Hin|[]].
  symmetry in Hin. now apply stats_query_not_mode_query in Hin.
Qed.

(** C10.  For both model classes, [enable_measurement_stats(True)]
    writes the token [ALL], and [enable_measurement_stats(False)] and
    [disable_measurement_stats] write [OFF], the latter as the method
    of [TekScope] and as the one either model class resolves to;
    [are_measurement_stats_on] returns [False] exactly when the answer to
    the mode query is [OFF] or [0].  So on a scope that echoes the
    last-set token, enabling and then querying gives [True], disabling
    and then querying gives [False]. *)
Theorem measurement_stats_mode (m : model) (w : World R) :
  enable_measurement_stats_of m true w
  = (Ok tt, after_write "measu:statistics:mode ALL" w)
  /\ enable_measurement_stats_of m false w
     = (Ok tt, after_write "measu:statistics:mode OFF" w)
  /\ disable_measurement_stats w
     = (Ok tt, after_write "measu:statistics:mode OFF" w)
  /\ disable_measurement_stats_of m w
     = (Ok tt, after_write "measu:statistics:mode OFF" w)
  /\ (exists on, are_measurement_stats_on_of m w
                 = (Ok on, after_ask "measu:statistics:mode?" w)
        /\ (on = false <->
            reply "measu:statistics:mode?" w = "OFF"
            \/ reply "measu:statistics:mode?" w = "0"))
  /\ (echoes_stats_mode w ->
      fst (bind (enable_measurement_stats_of m true)
             (fun _ => are_measurement_stats_on_of m) w) = Ok true
      /\ fst (bind disable_measurement_stats
                (fun _ => are_measurement_stats_on) w) = Ok false
      /\ fst (bind (disable_measurement_stats_of m)
                (fun _ => are_measurement_stats_on_of m) w) = Ok false).
Proof.
  assert (Hmeth : enable_measurement_stats_of m = enable_measurement_stats
                  /\ disable_measurement_stats_of m = disable_measurement_stats
                  /\ are_measurement_stats_on_of m = are_measurement_stats_on)
    by (destruct m; repeat split; reflexivity).
  destruct Hmeth as (Hen & Hdis & Hare).
  rewrite Hen, Hdis, Hare.
  assert (Hoff : forall w0 : World R,
            disable_measurement_stats w0
            = (Ok tt, after_write "measu:statistics:mode OFF" w0))
    by reflexivity.
  split; [reflexivity|]. split; [reflexivity|].
  split; [apply Hoff|]. split; [apply Hoff|].
  split.
  - eexists. split; [apply are_measurement_stats_on_run|].
    rewrite <- mem_off_zero.
    destruct (mem (reply "measu:statistics:mode?" w) ["OFF"; "0"]);
      cbn; intuition congruence.
  - intros Hecho.
    assert (Eoff : fst (bind disable_measurement_stats
                          (fun _ => are_measurement_stats_on) w) = Ok false).
    { rewrite (bind_ok _ _ _ _ _ (Hoff w)), are_measurement_stats_on_run.
      cbn [fst].
      change "measu:statistics:mode OFF"
        with ("measu:statistics:mode " ++ "OFF").
      now rewrite (Hecho "OFF"). }
    split; [|split; exact Eoff].
    unfold enable_measurement_stats.
    rewrite bind_write, are_measurement_stats_on_run. cbn [fst].
    now rewrite (Hecho "ALL").
Qed.
End Measurement_statistics.

Lemma scope_echoes_stats_mode (samples : list Z) (mode : string) :
  echoes_stats_mode (Mock.fresh (Mock.scope samples mode)).
Proof.
  intros token. cbv -[Mock.curve_block str_of_int]. reflexivity.
Qed.

Lemma read_measurement_stats_off_witness :
  reply "measu:statistics:mode?" (Mock.fresh (Mock.scope [] "OFF")) = "OFF"
  /\ @Tektronix.read_measurement_stats _ _ float _ 1
       (Mock.fresh (Mock.scope [] "OFF"))
     = (Raise (Exception Tektronix.stats_off),
        after_ask "measu:statistics:mode?" (Mock.fresh (Mock.scope [] "OFF"))).
Proof.
  split; [reflexivity|].
  apply (@read_measurement_stats_off _ _ float _ 1
           (Mock.fresh (Mock.scope [] "OFF"))).
  left. reflexivity.
Defined.

Lemma measurement_stats_mode_witness :
  echoes_stats_mode (Mock.fresh (Mock.scope [] "OFF"))
  /\ fst (bind (Tektronix.enable_measurement_stats_of Tektronix.MSO_DPO_4000 true)
            (fun _ => Tektronix.are_measurement_stats_on_of Tektronix.MSO_DPO_4000)
            (Mock.fresh (Mock.scope [] "OFF"))) = Ok true
  /\ fst (bind Tektronix.disable_measurement_stats
            (fun _ => Tektronix.are_measurement_stats_on)
            (Mock.fresh (Mock.scope [] "ALL"))) = Ok false
  /\ fst (bind (Tektronix.disable_measurement_stats_of Tektronix.TDS_3000)
            (fun _ => Tektronix.are_measurement_stats_on_of Tektronix.TDS_3000)
            (Mock.fresh (Mock.scope [] "ALL"))) = Ok false.
Proof.
  split; [apply scope_echoes_stats_mode|]. split.
  - destruct (measurement_stats_mode Tektronix.MSO_DPO_4000
                (Mock.fresh (Mock.scope [] "OFF")))
      as (_ & _ & _ & _ & _ & Hecho).
    exact (proj1 (Hecho (scope_echoes_stats_mode [] "OFF"))).
  - destruct (measurement_stats_mode Tektronix.TDS_3000
                (Mock.fresh (Mock.scope [] "ALL")))
      as (_ & _ & _ & _ & _ & Hecho).
    exact (proj2 (Hecho (scope_echoes_stats_mode [] "ALL"))).
Defined.

(** ** The waveform of [get_data] *)

(** ** Items of a buffer *)

Lemma code_ascii_of_N (n : Z) :
  0 <= n < 256 -> code (ascii_of_N (Z.to_N n)) = n.
Proof.
  intros Hn. unfold code. rewrite N_ascii_embedding; lia.
Qed.

Lemma be_int16_be_bytes (v : Z) (s : string) :
  int16 v ->
  exists hi lo, be_bytes v ++ s = String hi (String lo s) /\ be_int16 hi lo = v.
Proof.
  intros Hv. unfold int16 in Hv. unfold be_bytes. cbn [append].
  eexists. eexists. split; [reflexivity|].
  unfold be_int16. cbv zeta.
  assert (Hm : 0 <= v mod 65536 < 65536) by (apply Z.mod_pos_bound; lia).
  rewrite !code_ascii_of_N
    by first [ apply Z.mod_pos_bound; lia
             | split; [apply Z.div_pos; lia | apply Z.div_lt_upper_bound; lia] ].
  rewrite <- (Z.div_mod (v mod 65536) 256) by lia.
  destruct (Z.ltb_spec (v mod 65536) 32768) as [Hlt|Hge].
  - destruct (Z_lt_le_dec v 0) as [Hneg|Hpos].
    + assert (v mod 65536 = v + 65536); [|lia].
      symmetry. apply (Z.mod_unique _ _ (-1)); lia.
    + apply Z.mod_small. lia.
  - destruct (Z_lt_le_dec v 0) as [Hneg|Hpos].
    + assert (v mod 65536 = v + 65536); [|lia].
      symmetry. apply (Z.mod_unique _ _ (-1)); lia.
    + rewrite Z.mod_small in Hge by lia. lia.
Qed.

Lemma items_tobytes (samples : list Z) (trailer : string) :
  Forall int16 samples ->
  items (List.length samples) (tobytes samples ++ trailer) = samples.
Proof.
  induction 1 as [|v samples Hv _ IH]; [reflexivity|].
  cbn [tobytes List.length]. rewrite append_assoc.
  destruct (be_int16_be_bytes v (tobytes samples ++ trailer) Hv)
    as (hi & lo & -> & Hdec).
  cbn [items]. now rewrite Hdec, IH.
Qed.

Lemma length_tobytes (samples : list Z) :
  String.length (tobytes samples) = (2 * List.length samples)%nat.
Proof.
  induction samples as [|v samples IH]; [reflexivity|].
  cbn [tobytes List.length]. unfold be_bytes. cbn [append String.length].
  rewrite IH. lia.
Qed.

Lemma frombuffer_count (buf : string) (offset count : Z) :
  0 <= offset -> 0 <= count ->
  offset + 2 * count <= Z.of_nat (String.length buf) ->
  frombuffer buf offset count
  = Ok (items (Z.to_nat count) (drop (Z.to_nat offset) buf)).
Proof.
  intros Ho Hc Hlen. unfold frombuffer.
  destruct (Z.ltb_spec offset 0); [lia|].
  destruct (Z.ltb_spec (Z.of_nat (String.length buf)) offset); [lia|].
  cbn [orb].
  destruct (Z.ltb_spec count 0); [lia|].
  destruct (Z.ltb_spec (Z.of_nat (String.length buf) - offset) (count * 2)); [lia|].
  reflexivity.
Qed.

(** ** The header of a block *)

(** Line 87 on an empty block: [raw_bin[0]] raises. *)
Lemma decode_curve_empty :
  Tektronix.decode_curve EmptyString = Raise IndexError.
Proof. reflexivity. Qed.

(** Line 87 on any other block: the first byte, an [int], is not equal
    to the [bytes] object [b'#'], whatever the byte is. *)
Lemma decode_curve_first_byte (c : ascii) (rest : string) :
  Tektronix.decode_curve (String c rest)
  = Raise (Exception Tektronix.missing_header).
Proof. reflexivity. Qed.

Lemma decode_curve_not_ok (raw_bin : string) (samples : list Z) :
  Tektronix.decode_curve raw_bin <> Ok samples.
Proof. destruct raw_bin; discriminate. Qed.

(** ** Arrays *)


(** ** Methods that only add to the messages written *)

Section Appends.
Context {R : Type} `{Resource R}.






End Appends.


Section Waveform_runs.
Context {R : Type} `{Resource R} {F : Type} `{Float F} `{Registry F}.
Import Tektronix.

Lemma float_ok (s : string) (v : F) :
  float s = Ok v <-> float_of_string s = Some v.
Proof.
  unfold float, of_option. destruct (float_of_string s); split; congruence.
Qed.

(** Once the point count and the six scale factors have been read,
    [get_data] has arrived at the end of the exchange, with the decode
    of the block and the two unit lookups to go. *)
Lemma get_data_after_preamble (channel : Z) (w : World R)
      (n : Z) (xi ym xz yz xo yo : F) :
  let t := transcript channel w in
  int (r_nr_pt t) = Ok n ->
  float_of_string (r_xincr t) = Some xi ->
  float_of_string (r_ymult t) = Some ym ->
  float_of_string (r_xzero t) = Some xz ->
  float_of_string (r_yzero t) = Some yz ->
  float_of_string (r_pt_off t) = Some xo ->
  float_of_string (r_yoff t) = Some yo ->
  get_data channel w
  = bind (lift (decode_curve (r_curve t)))
      (fun raw_y =>
         bind (lift (unit_named (slice_1_m1 (r_xunit t))))
           (fun ux =>
              bind (lift (unit_named (slice_1_m1 (r_yunit t))))
                (fun uy =>
                   ret (mkQuantity (scaled (arange 1 (stop + 1)) xo xi xz) ux,
                        mkQuantity (scaled raw_y yo ym yz) uy))))
      (r_end t).
Proof.
  intros t Hn Hxi Hym Hxz Hyz Hxo Hyo.
  apply float_ok in Hxi, Hym, Hxz, Hyz, Hxo, Hyo.
  unfold get_data.
  rewrite bind_write, bind_ask, (bind_lift_ok _ _ _ _ Hn).
  rewrite !bind_write, bind_read_raw.
  rewrite bind_ask, (bind_lift_ok _ _ _ _ Hxi).
  rewrite bind_ask, (bind_lift_ok _ _ _ _ Hym).
  rewrite bind_ask, (bind_lift_ok _ _ _ _ Hxz).
  rewrite bind_ask, (bind_lift_ok _ _ _ _ Hyz).
  rewrite bind_ask, (bind_lift_ok _ _ _ _ Hxo).
  rewrite bind_ask, (bind_lift_ok _ _ _ _ Hyo).
  rewrite bind_ask. cbv beta zeta. rewrite bind_ask.
  reflexivity.
Qed.

(** The run on a scope whose answers parse, to the end of the exchange:
    whatever the decode of the block gives, nothing more is written. *)
Lemma get_data_world (channel : Z) (w : World R)
      (n : Z) (xi ym xz yz xo yo : F) :
  let t := transcript channel w in
  int (r_nr_pt t) = Ok n ->
  float_of_string (r_xincr t) = Some xi ->
  float_of_string (r_ymult t) = Some ym ->
  float_of_string (r_xzero t) = Some xz ->
  float_of_string (r_yzero t) = Some yz ->
  float_of_string (r_pt_off t) = Some xo ->
  float_of_string (r_yoff t) = Some yo ->
  snd (get_data channel w) = r_end t.
Proof.
  intros t Hn Hxi Hym Hxz Hyz Hxo Hyo.
  rewrite (get_data_after_preamble channel w n xi ym xz yz xo yo)
    by assumption.
  fold t. unfold bind, lift.
  destruct (decode_curve (r_curve t)); [|reflexivity].
  destruct (unit_named (slice_1_m1 (r_xunit t))); [|reflexivity].
  destruct (unit_named (slice_1_m1 (r_yunit t))); reflexivity.
Qed.

(** The run on a scope that has sent a block: line 87 raises. *)
Lemma get_data_block (channel : Z) (w : World R)
      (n : Z) (xi ym xz yz xo yo : F) :
  let t := transcript channel w in
  int (r_nr_pt t) = Ok n ->
  float_of_string (r_xincr t) = Some xi ->
  float_of_string (r_ymult t) = Some ym ->
  float_of_string (r_xzero t) = Some xz ->
  float_of_string (r_yzero t) = Some yz ->
  float_of_string (r_pt_off t) = Some xo ->
  float_of_string (r_yoff t) = Some yo ->
  r_curve t <> EmptyString ->
  get_data channel w = (Raise (Exception missing_header), r_end t).
Proof.
  intros t Hn Hxi Hym Hxz Hyz Hxo Hyo Hblock.
  rewrite (get_data_after_preamble channel w n xi ym xz yz xo yo)
    by assumption.
  fold t. destruct (r_curve t) as [|c rest]; [contradiction|].
  now rewrite (bind_lift_raise _ _ _ _ (decode_curve_first_byte c rest)).
Qed.

(** The fifteen messages of the exchange. *)
Lemma sent_r_end (channel : Z) (w : World R) :
  newly_sent w (r_end (transcript channel w)) (get_data_messages channel).
Proof.
  unfold newly_sent, transcript, get_data_messages.
  cbn [r_end sent after_ask after_write after_read_raw].
  now rewrite <- !app_assoc.
Qed.

End Waveform_runs.

(** One step of a run that is known to end in a value: the writes and
    queries go through, and a pure step that raises is excluded. *)
Ltac run_io Hrun :=
  repeat first
    [ rewrite bind_write in Hrun
    | rewrite bind_ask in Hrun
    | rewrite bind_read_raw in Hrun
    | progress cbv beta zeta in Hrun ].

Ltac run_pure Hrun v E :=
  match type of Hrun with
  | bind (lift ?r) _ _ = _ =>
      destruct r as [v|] eqn:E;
      [ rewrite (bind_lift_ok _ _ _ _ eq_refl) in Hrun
      | rewrite (bind_lift_raise _ _ _ _ eq_refl) in Hrun; discriminate Hrun ]
  end.

Section Waveform_inversion.
Context {R : Type} `{Resource R} {F : Type} `{Float F} `{Registry F}.
Import Tektronix.

(** A run that ends in a value has decoded the block. *)
Lemma get_data_ok_inv (channel : Z) (w w' : World R)
      (x y : Quantity (list F)) :
  get_data channel w = (Ok (x, y), w') ->
  exists raw_y, decode_curve (r_curve (transcript channel w)) = Ok raw_y.
Proof.
  intros Hrun. unfold get_data in Hrun.
  run_io Hrun. run_pure Hrun n En.
  run_io Hrun. run_pure Hrun xi Exi.
  run_io Hrun. run_pure Hrun ym Eym.
  run_io Hrun. run_pure Hrun xz Exz.
  run_io Hrun. run_pure Hrun yz Eyz.
  run_io Hrun. run_pure Hrun xo Exo.
  run_io Hrun. run_pure Hrun yo Eyo.
  run_io Hrun. run_pure Hrun raw_y Ey.
  exists raw_y. exact Ey.
Qed.

Lemma get_data_not_ok (channel : Z) (w w' : World R)
      (x y : Quantity (list F)) :
  get_data channel w <> (Ok (x, y), w').
Proof.
  intros Hrun. destruct (get_data_ok_inv channel w w' x y Hrun) as [raw_y Hraw].
  now apply decode_curve_not_ok in Hraw.
Qed.
End Waveform_inversion.

Section Waveform_claims.
Context {R : Type} `{Resource R} {F : Type} `{Float F} `{Registry F}.
Import Tektronix.

(** C1.  The code does not return the arrays of the claim.  For every
    channel, when the point count and the six scale factors parse and
    the scope has sent a block, of one byte or more, [get_data] raises
    the missing-header exception of line 87 at the end of the exchange:
    the first byte of the block, an [int], is compared with the [bytes]
    object [b'#'].  No block decodes, and no call returns [x] and [y]. *)
Theorem get_data_missing_header (channel : Z) (w : World R)
        (n : Z) (xi ym xz yz xo yo : F) :
  let t := transcript channel w in
  int (r_nr_pt t) = Ok n ->
  float_of_string (r_xincr t) = Some xi ->
  float_of_string (r_ymult t) = Some ym ->
  float_of_string (r_xzero t) = Some xz ->
  float_of_string (r_yzero t) = Some yz ->
  float_of_string (r_pt_off t) = Some xo ->
  float_of_string (r_yoff t) = Some yo ->
  r_curve t <> EmptyString ->
  get_data channel w = (Raise (Exception missing_header), r_end t)
  /\ (forall raw_y : list Z, decode_curve (r_curve t) <> Ok raw_y)
  /\ (forall (x y : Quantity (list F)) (w' : World R),
        get_data channel w <> (Ok (x, y), w')).
Proof.
  intros t Hn Hxi Hym Hxz Hyz Hxo Hyo Hblock.
  split; [now apply (get_data_block channel w n xi ym xz yz xo yo)|].
  split; [intros raw_y; apply decode_curve_not_ok|].
  intros x y w'. apply get_data_not_ok.
Qed.


(** C3.  The decode does not do what the claim says of a well-formed
    block.  A block made of the marker [#], a digit [d], [d] digits
    writing the byte count [2 * N] and the bytes of [N] samples holds
    these samples where the claim says: [frombuffer] at the offset
    [d + 2] with the count [N] returns them.  The decode of this block
    raises the missing-header exception all the same, and no block at
    all decodes to an array.  The other half of the claim holds: a block
    whose first byte is not the marker makes the decode, and [get_data]
    once the scale factors have been read, raise that exception. *)
Theorem decode_curve_every_block :
  (forall (d : ascii) (lendigits trailer : string) (samples : list Z),
     is_digit d = true ->
     String.length lendigits = Z.to_nat (digit_value d) ->
     all_digits lendigits = true ->
     lendigits <> EmptyString ->
     decimal_value lendigits = 2 * Z.of_nat (List.length samples) ->
     Forall int16 samples ->
     let block :=
       String "#" (String d (lendigits ++ tobytes samples ++ trailer)) in
     frombuffer block (digit_value d + 2) (decimal_value lendigits / 2)
     = Ok samples
     /\ decode_curve block = Raise (Exception missing_header))
  /\ (forall (raw_bin : string) (samples : list Z),
        decode_curve raw_bin <> Ok samples)
  /\ (forall (c : ascii) (rest : string),
        c <> "#"%char ->
        decode_curve (String c rest) = Raise (Exception missing_header))
  /\ (forall (channel : Z) (w : World R) (n : Z) (xi ym xz yz xo yo : F)
             (c : ascii) (rest : string),
        let t := transcript channel w in
        int (r_nr_pt t) = Ok n ->
        float_of_string (r_xincr t) = Some xi ->
        float_of_string (r_ymult t) = Some ym ->
        float_of_string (r_xzero t) = Some xz ->
        float_of_string (r_yzero t) = Some yz ->
        float_of_string (r_pt_off t) = Some xo ->
        float_of_string (r_yoff t) = Some yo ->
        r_curve t = String c rest ->
        c <> "#"%char ->
        get_data channel w = (Raise (Exception missing_header), r_end t)).
Proof.
  split; [|split; [|split]].
  - intros d lendigits trailer samples Hd Hlen Hdigits Hne Hcount Hrange block.
    split; [|reflexivity].
    assert (Hhalf : decimal_value lendigits / 2
                    = Z.of_nat (List.length samples))
      by (symmetry; apply (Z.div_unique _ 2 _ 0); lia).
    pose proof (digit_value_range d Hd) as Hr.
    unfold block. rewrite frombuffer_count.
    + f_equal. rewrite Hhalf, Nat2Z.id.
      replace (Z.to_nat (digit_value d + 2))
        with (S (S (String.length lendigits))) by lia.
      cbn [drop]. rewrite drop_append. now apply items_tobytes.
    + lia.
    + lia.
    + cbn [String.length].
      rewrite !length_append, length_tobytes, Hhalf. lia.
  - exact decode_curve_not_ok.
  - intros c rest _. apply decode_curve_first_byte.
  - intros channel w n xi ym xz yz xo yo c rest t Hn Hxi Hym Hxz Hyz Hxo Hyo
           Hcurve Hc.
    apply (get_data_block channel w n xi ym xz yz xo yo); try assumption.
    fold t. rewrite Hcurve. discriminate.
Qed.
End Waveform_claims.

(** ** Runs on the table-driven scope *)

(** The scope of the end-to-end example: four samples, scale factors 1.0
    and offsets 0.0, units [S] and [V]. *)
Lemma get_data_missing_header_witness :
  let w := Mock.fresh (Mock.scope [10; 20; 30; 40] "OFF") in
  r_curve (transcript 1 w) = "#18" ++ tobytes [10; 20; 30; 40] ++ LF
  /\ @Tektronix.get_data Mock.Device _ float _ _ 1 w
     = (Raise (Exception Tektronix.missing_header), r_end (transcript 1 w)).
Proof.
  intros w. split; [reflexivity|].
  refine (proj1 (@get_data_missing_header Mock.Device _ float _ _ 1 w
                   4 1%float 1%float 0%float 0%float 0%float 0%float
                   _ _ _ _ _ _ _ _));
    try reflexivity.
  discriminate.
Defined.


Lemma decode_curve_every_block_witness :
  (let block := "#18" ++ tobytes [10; 20; 30; -40] ++ LF in
   frombuffer block 3 4 = Ok [10; 20; 30; -40]
   /\ Tektronix.decode_curve block
      = Raise (Exception Tektronix.missing_header))
  /\ Tektronix.decode_curve ("18" ++ tobytes [10; 20; 30; -40])
     = Raise (Exception Tektronix.missing_header).
Proof.
  destruct (@decode_curve_every_block Mock.Device _ float _ _)
    as (Hblock & _ & Hmarker & _).
  split.
  - apply (Hblock "1"%char "8" LF [10; 20; 30; -40]);
      try reflexivity; [discriminate|].
    repeat constructor; unfold int16; lia.
  - apply (Hmarker "1"%char). discriminate.
Defined.

(* ===================================================================== *)
(** * Further properties of the drivers                                   *)
(* ===================================================================== *)

(** ** Printing an integer and reading it back *)

Lemma digits_of_uint_acc (d : Decimal.uint) (acc : positive) :
  digits_value (Zpos acc) (NilEmpty.string_of_uint d)
  = Some (Zpos (Pos.of_uint_acc d acc)).
Proof.
  revert acc.
  induction d as [|d IH|d IH|d IH|d IH|d IH|d IH|d IH|d IH|d IH|d IH];
    intros acc; cbn [NilEmpty.string_of_uint digits_value Pos.of_uint_acc];
    [reflexivity | ..];
    match goal with
    | |- context [is_digit ?c] => change (is_digit c) with true; cbv iota
    end;
    rewrite <- IH; f_equal; unfold digit_value, code;
    match goal with
    | |- context [Z.of_N (N_of_ascii ?c)] =>
        let v := eval vm_compute in (Z.of_N (N_of_ascii c)) in
        change (Z.of_N (N_of_ascii c)) with v
    end; lia.
Qed.

Lemma digits_of_uint (d : Decimal.uint) :
  digits_value 0 (NilEmpty.string_of_uint d) = Some (Z.of_N (Pos.of_uint d)).
Proof.
  induction d as [|d IH|d IH|d IH|d IH|d IH|d IH|d IH|d IH|d IH|d IH];
    cbn [NilEmpty.string_of_uint digits_value Pos.of_uint];
    [reflexivity | exact IH | ..];
    match goal with
    | |- context [is_digit ?c] => change (is_digit c) with true; cbv iota
    end;
    cbn [Z.of_N]; rewrite <- digits_of_uint_acc; reflexivity.
Qed.

Lemma all_digits_of_uint (d : Decimal.uint) :
  all_digits (NilEmpty.string_of_uint d) = true.
Proof.
  induction d; cbn [NilEmpty.string_of_uint]; [reflexivity | ..];
    rewrite all_digits_cons, IHd; reflexivity.
Qed.

Lemma decimal_value_of_pos (p : positive) :
  all_digits (NilEmpty.string_of_uint (Pos.to_uint p)) = true
  /\ NilEmpty.string_of_uint (Pos.to_uint p) <> EmptyString
  /\ decimal_value (NilEmpty.string_of_uint (Pos.to_uint p)) = Zpos p.
Proof.
  split; [apply all_digits_of_uint|]. split.
  - pose proof (Unsigned.to_uint_nonnil p) as Hnil.
    destruct (Pos.to_uint p); [contradiction | discriminate ..].
  - pose proof (digits_of_uint (Pos.to_uint p)) as Hv.
    rewrite (digits_value_fold _ 0 (all_digits_of_uint _)) in Hv.
    rewrite Unsigned.of_to in Hv. now injection Hv.
Qed.

Lemma str_of_int_pos (p : positive) :
  str_of_int (Zpos p) = NilEmpty.string_of_uint (Pos.to_uint p).
Proof.
  unfold str_of_int. cbn [Z.to_int NilZero.string_of_int].
  unfold NilZero.string_of_uint.
  pose proof (Unsigned.to_uint_nonnil p) as Hnil.
  destruct (Pos.to_uint p); [contradiction | reflexivity ..].
Qed.

Lemma str_of_int_neg (p : positive) :
  str_of_int (Zneg p) = String "-" (str_of_int (Zpos p)).
Proof.
  rewrite str_of_int_pos. unfold str_of_int.
  cbn [Z.to_int NilZero.string_of_int]. unfold NilZero.string_of_uint.
  pose proof (Unsigned.to_uint_nonnil p) as Hnil.
  destruct (Pos.to_uint p); [contradiction | reflexivity ..].
Qed.

Lemma str_of_int_pos_digits (p : positive) :
  all_digits (str_of_int (Zpos p)) = true
  /\ str_of_int (Zpos p) <> EmptyString
  /\ decimal_value (str_of_int (Zpos p)) = Zpos p.
Proof. rewrite str_of_int_pos. apply decimal_value_of_pos. Qed.

Lemma no_space_cons (c : ascii) (s : string) :
  no_space (String c s) = negb (is_space c) && no_space s.
Proof. reflexivity. Qed.

Lemma no_space_rev_append (s a : string) :
  no_space (rev_append s a) = no_space s && no_space a.
Proof.
  revert a. induction s as [|c s IH]; intros a; simpl; [reflexivity|].
  rewrite IH, !no_space_cons.
  now destruct (is_space c), (no_space s).
Qed.

Lemma lstrip_no_space (s : string) :
  no_space s = true -> lstrip_by is_space s = s.
Proof.
  destruct s as [|c s]; [reflexivity|].
  rewrite no_space_cons. intros Hs. apply andb_prop in Hs as [Hc _].
  simpl. now destruct (is_space c).
Qed.

Lemma strip_no_space (s : string) : no_space s = true -> strip s = s.
Proof.
  intros Hs. unfold strip, strip_by.
  rewrite (lstrip_no_space s Hs), lstrip_no_space; [apply rev_involutive|].
  unfold rev. now rewrite no_space_rev_append, Hs.
Qed.

Lemma digits_no_space (s : string) : all_digits s = true -> no_space s = true.
Proof.
  induction s as [|c s IH]; [reflexivity|].
  rewrite all_digits_cons, no_space_cons. intros Hd.
  apply andb_prop in Hd as [Hc Hs].
  now rewrite (digit_not_space c Hc), IH.
Qed.

(** [int(str(n)) == n] *)
Lemma int_str_of_int (n : Z) : int (str_of_int n) = Ok n.
Proof.
  destruct n as [|p|p].
  - reflexivity.
  - destruct (str_of_int_pos_digits p) as (Hd & Hne & Hv).
    now rewrite int_digits, Hv.
  - destruct (str_of_int_pos_digits p) as (Hd & Hne & Hv).
    rewrite str_of_int_neg. unfold int, int_of_string.
    rewrite strip_no_space
      by (rewrite no_space_cons; now rewrite (digits_no_space _ Hd)).
    unfold signed_value. rewrite (unsigned_value_digits _ Hd Hne), Hv.
    reflexivity.
Qed.

Lemma str_of_int_inj (n m : Z) : str_of_int n = str_of_int m -> n = m.
Proof.
  intros E. pose proof (int_str_of_int n) as Hn.
  rewrite E, int_str_of_int in Hn. now injection Hn.
Qed.

Lemma str_of_int_not_query (n : Z) : str_of_int n <> "?".
Proof.
  intros E. pose proof (int_str_of_int n) as Hn. rewrite E in Hn.
  discriminate Hn.
Qed.

(** ** The instrument with one setting *)

Lemma eqb_append_l (a b c : string) :
  String.eqb (a ++ b) (a ++ c) = String.eqb b c.
Proof.
  induction a as [|x a IH]; [reflexivity|].
  cbn [append String.eqb]. now rewrite Ascii.eqb_refl.
Qed.

Lemma startswith_append (a b : string) : startswith a (a ++ b) = true.
Proof.
  induction a as [|x a IH]; [reflexivity|].
  cbn [append startswith]. now rewrite Ascii.eqb_refl.
Qed.

Lemma register_echoes (cmd value : string) :
  echoes cmd (Mock.fresh (Bench.register cmd value)).
Proof.
  intros n. unfold reply, after_write, Mock.fresh, Bench.register.
  cbn [dev rsrc_write rsrc_read Mock.Resource_Device].
  unfold Mock.dev_write at 2.
  cbn [Mock.answers Mock.settings Mock.block Mock.pending str_lookup lookup].
  unfold str_lookup. cbn [lookup]. rewrite eqb_append_l.
  destruct (String.eqb_spec "?" (str_of_int n)) as [E|_].
  { symmetry in E. now apply str_of_int_not_query in E. }
  cbn [Mock.setting_of]. rewrite startswith_append, drop_append.
  cbn [Mock.update]. rewrite String.eqb_refl.
  unfold Mock.dev_write.
  cbn [Mock.answers Mock.settings Mock.block Mock.pending lookup fst].
  unfold str_lookup. cbn [lookup]. now rewrite String.eqb_refl.
Qed.

(** ** The other methods of the 1830-C *)

Lemma int_raises (s : string) (e : exn) : int s = Raise e -> e = ValueError.
Proof.
  unfold int, of_option. destruct (int_of_string s); [discriminate|].
  intros E. now injection E.
Qed.

Section Panel_facts.
Context {R : Type} `{Resource R} {F : Type} `{Float F}.
Import Newport_1830_C Newport_1830_C_panel.

(** After [cmd n] has been written to an echoing instrument, the answer
    to [cmd?] reads as [n]. *)
Lemma echo_query (cmd : string) (n : Z) (w : World R) :
  echoes cmd w ->
  bind (mixin_query (cmd ++ "?")) (fun r => lift (int r))
    (after_write (cmd ++ str_of_int n) w)
  = (Ok n, after_ask (cmd ++ "?") (after_write (cmd ++ str_of_int n) w)).
Proof.
  intros Hecho. unfold mixin_query. rewrite bind_ask, Hecho.
  unfold lift. now rewrite int_str_of_int.
Qed.

(** X1.  When the meter is not in watts mode and its display does not
    read as a float, [power] raises [ValueError] after it has switched
    the meter to watts: [U?], [U1] and [D?] have been written, and the
    command that would restore the original mode has not. *)
Theorem power_failure_leaves_watts (w : World R) :
  reply "U?" w <> "1" ->
  float_of_string (reply "D?" (after_write "U1" (after_ask "U?" w))) = None ->
  power w
  = (Raise ValueError, after_ask "D?" (after_write "U1" (after_ask "U?" w)))
  /\ forall msgs, newly_sent w (snd (power w)) msgs ->
       msgs = ["U?"; "U1"; "D?"]
       /\ ~ In ("U" ++ reply "U?" w) (tl msgs).
Proof.
  intros Hmode Hdisplay.
  assert (E : power w
              = (Raise ValueError,
                 after_ask "D?" (after_write "U1" (after_ask "U?" w)))).
  { unfold power, power_getter, mixin_query, mixin_write.
    rewrite bind_ask.
    destruct (String.eqb_spec (reply "U?" w) "1") as [E|_]; [contradiction|].
    cbn [negb]. rewrite bind_write, bind_ask, Hdisplay. reflexivity. }
  split; [exact E|].
  intros msgs Hsent. rewrite E in Hsent. unfold newly_sent in Hsent.
  cbn [snd sent after_ask after_write] in Hsent.
  rewrite <- !app_assoc in Hsent. apply app_inv_head in Hsent. subst msgs.
  split; [reflexivity|].
  cbn [tl app]. intros [Hin|[Hin|[]]]; [|discriminate Hin].
  apply Hmode. now injection Hin.
Qed.

(** X2.  Hold mode is written inverted, [G0] for hold and [G1] for run,
    and read back inverted: on a meter that echoes the [G] setting,
    [hold_enabled] after [enable_hold(enable)] returns [enable]. *)
Theorem hold_round_trip (w : World R) (enable : bool) :
  echoes "G" w ->
  exists w',
    bind (enable_hold enable) (fun _ => hold_enabled) w = (Ok enable, w')
    /\ newly_sent w w' [(if enable then "G0" else "G1"); "G?"].
Proof.
  intros Hecho. unfold enable_hold, hold_enabled, mixin_write.
  rewrite bind_write.
  rewrite <- (bind_bind (mixin_query "G?") (fun r => lift (int r))).
  rewrite (bind_ok _ _ _ _ _ (echo_query "G" _ w Hecho)).
  eexists. split.
  - rewrite ret_run. now destruct enable.
  - unfold newly_sent. cbn [sent after_ask after_write].
    rewrite <- app_assoc. now destruct enable.
Qed.

(** X3.  On a meter that echoes the [Z] setting, [zero_enabled] after
    [enable_zero(enable)] returns [enable]. *)
Theorem zero_round_trip (w : World R) (enable : bool) :
  echoes "Z" w ->
  exists w',
    bind (enable_zero enable) (fun _ => zero_enabled) w = (Ok enable, w')
    /\ newly_sent w w' [(if enable then "Z1" else "Z0"); "Z?"].
Proof.
  intros Hecho. unfold enable_zero, zero_enabled, mixin_write.
  rewrite bind_write.
  rewrite <- (bind_bind (mixin_query "Z?") (fun r => lift (int r))).
  rewrite (bind_ok _ _ _ _ _ (echo_query "Z" _ w Hecho)).
  eexists. split.
  - rewrite ret_run. now destruct enable.
  - unfold newly_sent. cbn [sent after_ask after_write].
    rewrite <- app_assoc. now destruct enable.
Qed.

(** X4.  The getter of [local_lockout] takes the truth value of the
    answer string, not of the number it writes: it returns [False] only
    for an empty answer, and [True] for the answer ["0"].  So on a meter
    that echoes the [L] setting it returns [True] after the lockout has
    been switched off, by the setter or by [close]. *)
Theorem local_lockout_reads_text (w : World R) :
  (exists on, local_lockout w = (Ok on, after_ask "L?" w)
     /\ (on = false <-> reply "L?" w = EmptyString))
  /\ (reply "L?" w = "0" -> fst (local_lockout w) = Ok true)
  /\ (echoes "L" w ->
      fst (bind (local_lockout_set false) (fun _ => local_lockout) w) = Ok true
      /\ fst (bind close (fun _ => local_lockout) w) = Ok true).
Proof.
  assert (Hrun : forall w0 : World R,
            local_lockout w0
            = (Ok (truthy_str (reply "L?" w0)), after_ask "L?" w0))
    by reflexivity.
  split; [|split].
  - eexists. split; [apply Hrun|]. unfold truthy_str.
    destruct (String.eqb_spec (reply "L?" w) EmptyString);
      cbn; intuition congruence.
  - intros E. now rewrite Hrun, E.
  - intros Hecho. unfold close, local_lockout_set, mixin_write.
    rewrite bind_write, Hrun. cbn [fst].
    pose proof (Hecho 0) as E0. cbn [append int_of_bool] in E0 |- *.
    rewrite E0. split; reflexivity.
Qed.

(** X5.  [attenuator_enabled] writes [A?] and reads nothing, so it
    returns [False] whatever the meter would answer.  On a meter that
    echoes the [A] setting, the answer to [A?] after
    [enable_attenuator(True)] reads as 1, and [attenuator_enabled]
    returns [False] all the same. *)
Theorem attenuator_enabled_never_reads (w : World R) :
  attenuator_enabled w = (Ok false, after_write "A?" w)
  /\ dev (snd (attenuator_enabled w)) = rsrc_write "A?" (dev w)
  /\ (echoes "A" w ->
      fst (bind (enable_attenuator true)
             (fun _ => bind (mixin_query "A?") (fun r => lift (int r))) w)
      = Ok 1
      /\ fst (bind (enable_attenuator true) (fun _ => attenuator_enabled) w)
         = Ok false).
Proof.
  split; [reflexivity|]. split; [reflexivity|].
  intros Hecho. split; [|reflexivity].
  unfold enable_attenuator, mixin_write. rewrite bind_write.
  pose proof (echo_query "A" 1 w Hecho) as E. cbn [append] in E |- *.
  cbn [int_of_bool]. now rewrite E.
Qed.

(** X6.  On a meter that echoes the [F] setting, [get_filter] after
    [set_slow_filter], [set_medium_filter] and [set_no_filter] returns
    [SLOW_FILTER], [MEDIUM_FILTER] and [NO_FILTER]. *)
Theorem filter_round_trip (w : World R) :
  echoes "F" w ->
  fst (bind set_slow_filter (fun _ => get_filter) w) = Ok SLOW_FILTER
  /\ fst (bind set_medium_filter (fun _ => get_filter) w) = Ok MEDIUM_FILTER
  /\ fst (bind set_no_filter (fun _ => get_filter) w) = Ok NO_FILTER.
Proof.
  intros Hecho.
  unfold set_slow_filter, set_medium_filter, set_no_filter, get_filter,
    mixin_write.
  rewrite !bind_write.
  pose proof (echo_query "F" 1 w Hecho) as E1.
  pose proof (echo_query "F" 2 w Hecho) as E2.
  pose proof (echo_query "F" 3 w Hecho) as E3.
  cbn [append] in E1, E2, E3.
  change (str_of_int 1) with "1" in E1.
  change (str_of_int 2) with "2" in E2.
  change (str_of_int 3) with "3" in E3.
  cbn [append] in E1, E2, E3.
  now rewrite E1, E2, E3.
Qed.

(** X7.  On a meter that echoes the [R] setting, [get_range] after
    [set_range(n)] returns [n], for every integer [n].
    [enable_auto_range] writes [R0].  [disable_auto_range] asks for the
    range and writes the number it read back as the manual range; when
    the answer is no integer it raises [ValueError] and [R?] is all it
    has written. *)
Theorem range_round_trip (w : World R) :
  (echoes "R" w ->
   forall n, fst (bind (set_range n) (fun _ => get_range) w) = Ok n)
  /\ enable_auto_range w = (Ok tt, after_write "R0" w)
  /\ (forall n, int (reply "R?" w) = Ok n ->
        disable_auto_range w
        = (Ok tt, after_write ("R" ++ str_of_int n) (after_ask "R?" w)))
  /\ (int_of_string (reply "R?" w) = None ->
        disable_auto_range w = (Raise ValueError, after_ask "R?" w)).
Proof.
  split; [|split; [|split]].
  - intros Hecho n.
    unfold set_range, range_set, facet_set, get_range, range_get, facet_get,
      mixin_write.
    rewrite bind_write. cbn [append].
    pose proof (echo_query "R" n w Hecho) as E. cbn [append] in E.
    now rewrite E.
  - reflexivity.
  - intros n Hn.
    unfold disable_auto_range, get_range, range_get, facet_get, mixin_query.
    cbn [append]. rewrite bind_bind, bind_ask, (bind_lift_ok _ n) by exact Hn.
    reflexivity.
  - intros Hn.
    unfold disable_auto_range, get_range, range_get, facet_get, mixin_query.
    cbn [append]. rewrite bind_bind, bind_ask.
    unfold int. rewrite Hn. reflexivity.
Qed.

(** X8.  [_check_visa_support] never raises: it writes [Z?] once and
    returns the class name exactly when the answer reads as the integer
    0 or 1, and [None] for every other answer, integer or not. *)
Theorem check_visa_support_total (w : World R) :
  exists found,
    _check_visa_support w = (Ok found, after_ask "Z?" w)
    /\ (found = Some "Newport_1830_C" <->
        int (reply "Z?" w) = Ok 0 \/ int (reply "Z?" w) = Ok 1)
    /\ (found = None <->
        int (reply "Z?" w) <> Ok 0 /\ int (reply "Z?" w) <> Ok 1).
Proof.
  unfold _check_visa_support, try_except. rewrite bind_ask.
  destruct (int (reply "Z?" w)) as [n|e] eqn:E.
  - rewrite (bind_lift_ok _ n) by reflexivity.
    destruct (Z.eqb_spec n 0) as [->|Hn0]; [|destruct (Z.eqb_spec n 1) as [->|Hn1]];
      cbn [orb]; rewrite ret_run; eexists; (split; [reflexivity|]);
      split; split; try discriminate; try tauto; try congruence.
    + intros [E0|E1]; congruence.
    + intros _. split; congruence.
  - rewrite (bind_lift_raise _ e) by reflexivity. rewrite ret_run.
    eexists. split; [reflexivity|].
    split; split; try discriminate; try tauto; try congruence.
    + intros [E0|E1]; discriminate.
    + intros _. split; discriminate.
Qed.

(** X9.  [get_units] writes [U?] once; it returns a name exactly when
    the answer reads as an integer from 1 to 4, raises [KeyError] for
    any other integer and [ValueError] for an answer that is no
    integer. *)
Theorem get_units_outcomes (w : World R) :
  snd (get_units w) = after_ask "U?" w
  /\ (forall n, int (reply "U?" w) = Ok n -> 1 <= n <= 4 ->
        exists name, fst (get_units w) = Ok name
                     /\ In name ["watts"; "db"; "dbm"; "rel"])
  /\ (forall n, int (reply "U?" w) = Ok n -> ~ (1 <= n <= 4) ->
        fst (get_units w) = Raise (KeyError (str_of_int n)))
  /\ (int_of_string (reply "U?" w) = None ->
        fst (get_units w) = Raise ValueError).
Proof.
  unfold get_units, mixin_query. rewrite bind_ask.
  split; [|split; [|split]].
  - destruct (int (reply "U?" w)) as [n|e] eqn:E.
    + rewrite (bind_lift_ok _ n) by reflexivity.
      now destruct (lookup Z.eqb n units_names).
    + now rewrite (bind_lift_raise _ e) by reflexivity.
  - intros n E Hn. rewrite (bind_lift_ok _ n) by exact E.
    assert (Hc : n = 1 \/ n = 2 \/ n = 3 \/ n = 4) by lia.
    destruct Hc as [->|[->|[->| ->]]]; eexists; (split; [reflexivity|]);
      cbn; tauto.
  - intros n E Hn. rewrite (bind_lift_ok _ n) by exact E.
    unfold units_names, lookup.
    destruct (Z.eqb_spec 1 n); [lia|]. destruct (Z.eqb_spec 2 n); [lia|].
    destruct (Z.eqb_spec 3 n); [lia|]. destruct (Z.eqb_spec 4 n); [lia|].
    reflexivity.
  - intros E. unfold int. rewrite E. reflexivity.
Qed.
End Panel_facts.

(** ** Splitting and stripping *)

Lemma none_cons (p : ascii -> bool) (c : ascii) (s : string) :
  none p (String c s) = negb (p c) && none p s.
Proof. reflexivity. Qed.

Lemma none_append (p : ascii -> bool) (a b : string) :
  none p (a ++ b) = none p a && none p b.
Proof.
  induction a as [|c a IH]; [reflexivity|].
  cbn [append]. rewrite !none_cons, IH. apply andb_assoc.
Qed.

Lemma none_rev_append (p : ascii -> bool) (s a : string) :
  none p (rev_append s a) = none p s && none p a.
Proof.
  revert a. induction s as [|c s IH]; intros a; simpl; [reflexivity|].
  rewrite IH, !none_cons. now destruct (p c), (none p s).
Qed.

Lemma rev_append_append (s a : string) : rev_append s a = rev s ++ a.
Proof.
  unfold rev. revert a. induction s as [|c s IH]; intros a; simpl; [reflexivity|].
  rewrite IH, (IH (String c EmptyString)), append_assoc. reflexivity.
Qed.

Lemma rev_rev_append (s a : string) : rev (rev_append s a) = rev a ++ s.
Proof.
  unfold rev at 1. rewrite rev_append_twice, append_nil_r.
  apply rev_append_append.
Qed.

Lemma lstrip_none (p : ascii -> bool) (s : string) :
  none p s = true -> lstrip_by p s = s.
Proof.
  destruct s as [|c s]; [reflexivity|].
  rewrite none_cons. intros Hs. apply andb_prop in Hs as [Hc _].
  simpl. now destruct (p c).
Qed.

Lemma strip_by_none (p : ascii -> bool) (s : string) :
  none p s = true -> strip_by p s = s.
Proof.
  intros Hs. unfold strip_by.
  rewrite (lstrip_none p s Hs), lstrip_none; [apply rev_involutive|].
  unfold rev. now rewrite none_rev_append, Hs.
Qed.

(** Stripping the quotes from [quoted s] gives [s] back when [s] holds
    no quote. *)
Lemma rev_append_of_append (a b acc : string) :
  rev_append (a ++ b) acc = rev_append b (rev_append a acc).
Proof.
  revert acc. induction a as [|c a IH]; intros acc; simpl; [reflexivity|].
  apply IH.
Qed.

Lemma rev_snoc (s : string) (c : ascii) :
  rev (s ++ String c EmptyString) = String c (rev s).
Proof. unfold rev. now rewrite rev_append_of_append. Qed.

Lemma strip_quoted (s : string) :
  none (Ascii.eqb dquote) s = true -> strip_char dquote (quoted s) = s.
Proof.
  intros Hs. unfold strip_char, strip_by, quoted.
  cbn [lstrip_by]. change (Ascii.eqb dquote dquote) with true. cbv iota.
  destruct s as [|c s]; [reflexivity|].
  assert (Hhead : lstrip_by (Ascii.eqb dquote)
                    (String c s ++ String dquote EmptyString)
                  = String c s ++ String dquote EmptyString).
  { rewrite none_cons in Hs. apply andb_prop in Hs as [Hc _].
    cbn [append lstrip_by]. now destruct (Ascii.eqb dquote c). }
  rewrite Hhead, rev_snoc. cbn [lstrip_by].
  change (Ascii.eqb dquote dquote) with true. cbv iota.
  rewrite lstrip_none; [apply rev_involutive|].
  unfold rev. now rewrite none_rev_append, Hs.
Qed.

Lemma split_aux_no_sep (sep : ascii) (h cur s : string) :
  lacks sep h = true ->
  split_aux sep cur (h ++ s) = split_aux sep (rev_append h cur) s.
Proof.
  revert cur. induction h as [|c h IH]; intros cur Hh; [reflexivity|].
  unfold lacks in Hh. rewrite none_cons in Hh.
  apply andb_prop in Hh as [Hc Hh].
  cbn [append split_aux rev_append].
  destruct (Ascii.eqb c sep); [discriminate Hc|]. now apply IH.
Qed.

Lemma split_aux_join (sep : ascii) (h : string) (t : list string) (cur : string) :
  lacks sep h = true -> Forall (fun s => lacks sep s = true) t ->
  split_aux sep cur (join sep (h :: t)) = (rev cur ++ h) :: t.
Proof.
  intros Hh Ht. revert h cur Hh.
  induction Ht as [|h2 t Hh2 Ht IH]; intros h cur Hh.
  - cbn [join]. rewrite <- (append_nil_r h) at 1.
    rewrite split_aux_no_sep by assumption.
    cbn [split_aux]. now rewrite rev_rev_append.
  - change (join sep (h :: h2 :: t)) with (h ++ String sep (join sep (h2 :: t))).
    rewrite split_aux_no_sep by assumption.
    cbn [split_aux]. rewrite Ascii.eqb_refl, rev_rev_append.
    f_equal. now rewrite IH.
Qed.

(** [sep.join(l).split(sep) == l] for fields without the separator. *)
Lemma split_join (sep : ascii) (l : list string) :
  l <> [] -> Forall (fun s => lacks sep s = true) l ->
  split sep (join sep l) = l.
Proof.
  intros Hne Hl. destruct l as [|h t]; [contradiction|].
  inversion Hl as [|? ? Hh Ht]. subst.
  unfold split. now rewrite split_aux_join.
Qed.

Lemma split_aux_inv (sep : ascii) (s cur : string) :
  lacks sep cur = true ->
  exists h t,
    split_aux sep cur s = h :: t
    /\ Forall (fun f => lacks sep f = true) (h :: t)
    /\ rev cur ++ s = join sep (h :: t).
Proof.
  revert cur. induction s as [|c s IH]; intros cur Hcur.
  - exists (rev cur), []. cbn [split_aux join]. split; [reflexivity|].
    split; [|apply append_nil_r].
    constructor; [|constructor].
    unfold rev, lacks in *. now rewrite none_rev_append, Hcur.
  - cbn [split_aux]. destruct (Ascii.eqb c sep) eqn:Ec.
    + apply Ascii.eqb_eq in Ec. subst c.
      destruct (IH EmptyString eq_refl) as (h & t & E & Hall & Hjoin).
      exists (rev cur), (h :: t). rewrite E. split; [reflexivity|]. split.
      * constructor; [|exact Hall].
        unfold rev, lacks in *. now rewrite none_rev_append, Hcur.
      * cbn [rev rev_append append] in Hjoin. rewrite Hjoin. reflexivity.
    + assert (Hcur' : lacks sep (String c cur) = true)
        by (unfold lacks in *; now rewrite none_cons, Ec, Hcur).
      destruct (IH (String c cur) Hcur') as (h & t & E & Hall & Hjoin).
      exists h, t. split; [exact E|]. split; [exact Hall|].
      rewrite <- Hjoin. unfold rev. cbn [rev_append].
      rewrite (rev_append_append cur (String c EmptyString)), append_assoc.
      reflexivity.
Qed.

(** What [split] returns is never empty, its fields hold no separator,
    and joining them gives the string back. *)
Lemma split_inv (sep : ascii) (s : string) :
  exists h t,
    split sep s = h :: t
    /\ Forall (fun f => lacks sep f = true) (h :: t)
    /\ s = join sep (h :: t).
Proof.
  destruct (split_aux_inv sep s EmptyString eq_refl) as (h & t & E & Hall & Hjoin).
  now exists h, t.
Qed.

(** ** Identification of a scope *)

Lemma mem_In (s : string) (l : list string) :
  Tektronix.mem s l = true <-> In s l.
Proof.
  unfold Tektronix.mem. rewrite existsb_exists. split.
  - intros (x & Hin & E). apply String.eqb_eq in E. now subst.
  - intros Hin. exists s. split; [exact Hin | apply String.eqb_refl].
Qed.

Lemma supported_lacks_comma (name : string) (m : Tektronix.model) :
  supported name m -> lacks "," name = true.
Proof.
  intros [[_ Hin]|[_ Hin]]; cbn in Hin;
    destruct Hin as [<-|[<-|[]]]; reflexivity.
Qed.

Lemma supported_model (name : string) (m : Tektronix.model) :
  supported name m <->
  (if Tektronix.mem name Tektronix._tds_3000_models then Some Tektronix.TDS_3000
   else if Tektronix.mem name Tektronix._mso_dpo_4000_models
        then Some Tektronix.MSO_DPO_4000 else None) = Some m.
Proof.
  unfold supported. split.
  - intros [[-> Hin]|[-> Hin]].
    + apply mem_In in Hin. now rewrite Hin.
    + cbn in Hin. destruct Hin as [<-|[<-|[]]]; reflexivity.
  - destruct (Tektronix.mem name Tektronix._tds_3000_models) eqn:E1.
    + intros E. injection E as <-. left. split; [reflexivity|].
      now apply mem_In.
    + destruct (Tektronix.mem name Tektronix._mso_dpo_4000_models) eqn:E2;
        [|discriminate].
      intros E. injection E as <-. right. split; [reflexivity|].
      now apply mem_In.
Qed.

(** X10.  [_instrument] accepts an identification exactly when it has
    four comma-separated fields, the first is [TEKTRONIX] and the second
    is one of the four supported model names, letter for letter: the
    class it picks is the one of the list the name is in; the serial
    number and the firmware field are free. *)
Theorem instrument_accepts (idn : string) (m : Tektronix.model) :
  Tektronix.model_of_idn idn = Some m <->
  exists name serial firmware,
    idn = "TEKTRONIX," ++ name ++ "," ++ serial ++ "," ++ firmware
    /\ lacks "," serial = true
    /\ lacks "," firmware = true
    /\ supported name m.
Proof.
  unfold Tektronix.model_of_idn. split.
  - destruct (split_inv "," idn) as (h & t & E & Hall & Hjoin).
    rewrite E. destruct t as [|name [|serial [|firmware [|? ?]]]];
      try discriminate.
    destruct (String.eqb_spec h "TEKTRONIX") as [->|_]; [|discriminate].
    intros Hm. apply supported_model in Hm.
    exists name, serial, firmware.
    inversion Hall as [|? ? _ Hall1]; inversion Hall1 as [|? ? _ Hall2];
      inversion Hall2 as [|? ? Hs Hall3]; inversion Hall3 as [|? ? Hf _];
      subst.
    repeat split; assumption.
  - intros (name & serial & firmware & -> & Hs & Hf & Hm).
    change ("TEKTRONIX," ++ name ++ "," ++ serial ++ "," ++ firmware)
      with (join "," ["TEKTRONIX"; name; serial; firmware]).
    rewrite split_join; [|discriminate|].
    + cbn [String.eqb Ascii.eqb Bool.eqb].
      change (String.eqb "TEKTRONIX" "TEKTRONIX") with true. cbv iota.
      now apply supported_model.
    + repeat constructor; try assumption.
      now apply (supported_lacks_comma name m).
Qed.

(** ** Reading measurements *)

Lemma length_removelast {A} (l : list A) :
  List.length (List.removelast l) = (List.length l - 1)%nat.
Proof.
  induction l as [|a [|b l] IH]; [reflexivity | reflexivity |].
  change (List.removelast (a :: b :: l)) with (a :: List.removelast (b :: l)).
  cbn [List.length] in *. rewrite IH. lia.
Qed.

Lemma map_fst_combine {A B} (l : list A) (l' : list B) :
  map fst (combine l l') = firstn (List.length l') l.
Proof.
  revert l'. induction l as [|a l IH]; intros [|b l']; cbn; try reflexivity.
  now rewrite IH.
Qed.

Lemma nth_error_combine {A B} (l : list A) (l' : list B) (i : nat) a b :
  nth_error l i = Some a -> nth_error l' i = Some b ->
  nth_error (combine l l') i = Some (a, b).
Proof.
  revert i l'. induction l as [|a0 l IH]; intros [|i] [|b0 l'] Ha Hb;
    try discriminate Ha; try discriminate Hb.
  - cbn in *. congruence.
  - cbn in *. now apply IH.
Qed.

Section Measurement_reads.
Context {R : Type} `{Resource R} {F : Type} `{Registry F}.
Import Tektronix.

Lemma quantities_ok (kvs : list (string * string)) (units : string)
      (d : list (string * stat)) :
  quantities kvs units = Ok d ->
  map fst d = map fst kvs
  /\ forall i k rval, nth_error kvs i = Some (k, rval) ->
       exists qty, quantity_of_string (rval ++ units) = Some qty
                   /\ nth_error d i = Some (k, Measured qty).
Proof.
  revert d. induction kvs as [|[k0 rval0] kvs IH]; intros d.
  - cbn. intros E. injection E as <-. split; [reflexivity|].
    intros [|i] k rval Hi; discriminate Hi.
  - cbn [quantities]. unfold Q_, of_option.
    destruct (quantity_of_string (rval0 ++ units)) as [q|] eqn:Eq;
      [|discriminate].
    destruct (quantities kvs units) as [d'|e]; [|discriminate].
    intros E. injection E as <-.
    destruct (IH d' eq_refl) as [Hkeys Hvals]. split.
    + cbn. now rewrite Hkeys.
    + intros [|i] k rval Hi.
      * cbn in Hi. injection Hi as <- <-. now exists q.
      * cbn in Hi |- *. now apply Hvals.
Qed.

(** X11.  A successful [read_measurement_stats] has written three
    messages: the mode query, the combined query and the weighting
    query.  The answer to the combined query is cut at the semicolons;
    its last field, without the quotes around it, is the unit, and the
    fields before it are paired with the five keys in order, as many as
    there are of either: an answer with fewer than six fields gives a
    dict with fewer statistics and no error.  Each statistic is [Q_] of
    its field followed by that one unit, and [nsamps] is the integer of
    the weighting answer. *)
Theorem read_measurement_stats_result (num : Z) (w w' : World R)
        (stats : list (string * stat)) :
  read_measurement_stats num w = (Ok stats, w') ->
  let w1 := after_ask "measu:statistics:mode?" w in
  let q := ("measurement:meas" ++ str_of_int num ++ ":")
             ++ "value?;mean?;stddev?;minimum?;maximum?;units?" in
  let fields := split ";" (reply q w1) in
  let units := strip_char dquote (last fields EmptyString) in
  newly_sent w w'
    ["measu:statistics:mode?"; q; "measurement:statistics:weighting?"]
  /\ map fst stats
     = (firstn (List.length fields - 1) stats_keys ++ ["nsamps"])%list
  /\ (forall i k rval,
        nth_error stats_keys i = Some k ->
        nth_error (List.removelast fields) i = Some rval ->
        exists qty, quantity_of_string (rval ++ units) = Some qty
                    /\ nth_error stats i = Some (k, Measured qty))
  /\ exists n,
       int (reply "measurement:statistics:weighting?" (after_ask q w1)) = Ok n
       /\ nth_error stats (List.length stats - 1) = Some ("nsamps", Count n).
Proof.
  intros Hrun w1 q fields units. unfold read_measurement_stats in Hrun.
  rewrite (bind_ok _ _ _ _ _ (are_measurement_stats_on_run w)) in Hrun.
  destruct (mem (reply "measu:statistics:mode?" w) ["OFF"; "0"]);
    [discriminate Hrun|].
  cbn [negb] in Hrun. fold w1 in Hrun. run_io Hrun. fold q in Hrun.
  fold fields in Hrun. fold units in Hrun.
  run_pure Hrun d Ed. run_io Hrun. run_pure Hrun n En.
  rewrite ret_run in Hrun. injection Hrun as <- <-.
  destruct (quantities_ok _ _ _ Ed) as [Hkeys Hvals].
  split; [|split; [|split]].
  - unfold newly_sent. cbn [sent after_ask]. unfold w1.
    cbn [sent after_ask]. now rewrite <- !app_assoc.
  - rewrite map_app, Hkeys, map_fst_combine, length_removelast. reflexivity.
  - intros i k rval Hk Hr.
    destruct (Hvals i k rval (nth_error_combine _ _ _ _ _ Hk Hr))
      as (qty & Hq & Hd).
    exists qty. split; [exact Hq|].
    rewrite nth_error_app1; [exact Hd|].
    apply nth_error_Some. congruence.
  - exists n. split; [reflexivity|].
    rewrite length_app. cbn [List.length].
    replace (List.length d + 1 - 1)%nat with (List.length d) by lia.
    now rewrite nth_error_app2, Nat.sub_diag by lia.
Qed.

(** X12.  [read_measurement_value] writes one query, in which the slot
    prefix and the field are joined by two colons.  It returns a
    quantity exactly when the answer has two fields, that is one
    semicolon: [Q_] of the first field followed by the second without
    the quotes around it; with any other number of fields it raises
    [ValueError]. *)
Theorem read_measurement_value_fields (num : Z) (w : World R) :
  let q := "measurement:meas" ++ str_of_int num ++ "::value?;units?" in
  snd (read_measurement_value num w) = after_ask q w
  /\ (forall value units,
        reply q w = value ++ ";" ++ units ->
        lacks ";" value = true -> lacks ";" units = true ->
        fst (read_measurement_value num w)
        = Q_ (value ++ strip_char dquote units))
  /\ (forall value unit,
        reply q w = value ++ ";" ++ quoted unit ->
        lacks ";" value = true -> lacks ";" unit = true ->
        none (Ascii.eqb dquote) unit = true ->
        fst (read_measurement_value num w) = Q_ (value ++ unit))
  /\ (forall qty,
        fst (read_measurement_value num w) = Ok qty ->
        exists value units,
          reply q w = value ++ ";" ++ units
          /\ lacks ";" value = true /\ lacks ";" units = true
          /\ quantity_of_string (value ++ strip_char dquote units) = Some qty).
Proof.
  intros q.
  assert (Hq : ("measurement:meas" ++ str_of_int num ++ ":") ++ ":value?;units?"
               = q).
  { unfold q. now rewrite !append_assoc. }
  unfold read_measurement_value. rewrite Hq, bind_ask.
  assert (Htwo : forall value units,
            reply q w = value ++ ";" ++ units ->
            lacks ";" value = true -> lacks ";" units = true ->
            split ";" (reply q w) = [value; units]).
  { intros value units E Hv Hu. rewrite E.
    change (value ++ ";" ++ units) with (join ";" [value; units]).
    apply split_join; [discriminate | now repeat constructor]. }
  split; [|split; [|split]].
  - destruct (split ";" (reply q w)) as [|a [|b [|c l]]]; reflexivity.
  - intros value units E Hv Hu. now rewrite (Htwo value units E Hv Hu).
  - intros value unit E Hv Hu Hquote.
    rewrite (Htwo value (quoted unit) E Hv).
    + cbn [fst lift]. now rewrite strip_quoted.
    + unfold lacks, quoted. rewrite none_cons, none_append, none_cons.
      unfold lacks in Hu. now rewrite Hu.
  - intros qty.
    destruct (split_inv ";" (reply q w)) as (h & t & E & Hall & Hjoin).
    rewrite E.
    destruct t as [|units [|c l]]; cbn [fst raise lift]; try discriminate.
    unfold Q_, of_option.
    destruct (quantity_of_string (h ++ strip_char dquote units)) as [q0|] eqn:Eq;
      [|discriminate].
    intros Eqty. injection Eqty as <-.
    exists h, units. inversion Hall as [|? ? Hh Hall1].
    inversion Hall1 as [|? ? Hu _]. subst.
    repeat split; assumption.
Qed.
End Measurement_reads.

(** ** More on the waveform *)

Section Waveform_more.
Context {R : Type} `{Resource R} {F : Type} `{Float F} `{Registry F}.
Import Tektronix.

(** The outcome of [get_data] is [waveform] of its transcript. *)
Lemma get_data_result (channel : Z) (w : World R) :
  fst (get_data channel w) = waveform (transcript channel w).
Proof.
  unfold waveform, transcript, get_data.
  cbn [r_nr_pt r_curve r_xincr r_ymult r_xzero r_yzero r_pt_off r_yoff
       r_xunit r_yunit].
  repeat first
    [ rewrite bind_write
    | rewrite bind_ask
    | rewrite bind_read_raw
    | progress cbv beta zeta
    | match goal with
      | |- fst (bind (lift ?r) _ _) = _ =>
          destruct r;
          [ rewrite (bind_lift_ok _ _ _ _ eq_refl)
          | rewrite (bind_lift_raise _ _ _ _ eq_refl); reflexivity ]
      end ].
  reflexivity.
Qed.

(** X14.  The point count the scope reports is read and not used, but
    it has to be an integer: when it is not, [get_data] raises
    [ValueError] with only the source selection and the point-count
    query written, and the curve is never asked for.  When it is, the
    outcome does not depend on it: two runs whose other nine answers
    agree return the same arrays or raise the same exception. *)
Theorem get_data_point_count (channel : Z) (w : World R) :
  (int_of_string (r_nr_pt (transcript channel w)) = None ->
   get_data channel w
   = (Raise ValueError,
      after_ask "wfmpre:nr_pt?"
        (after_write ("data:source ch" ++ str_of_int channel) w))
   /\ forall msgs, newly_sent w (snd (get_data channel w)) msgs ->
        msgs = ["data:source ch" ++ str_of_int channel; "wfmpre:nr_pt?"]
        /\ ~ In "curve?" msgs)
  /\ (forall w2 : World R,
        let t1 := transcript channel w in
        let t2 := transcript channel w2 in
        (exists n1, int (r_nr_pt t1) = Ok n1) ->
        (exists n2, int (r_nr_pt t2) = Ok n2) ->
        r_curve t1 = r_curve t2 ->
        r_xincr t1 = r_xincr t2 -> r_ymult t1 = r_ymult t2 ->
        r_xzero t1 = r_xzero t2 -> r_yzero t1 = r_yzero t2 ->
        r_pt_off t1 = r_pt_off t2 -> r_yoff t1 = r_yoff t2 ->
        r_xunit t1 = r_xunit t2 -> r_yunit t1 = r_yunit t2 ->
        fst (get_data channel w) = fst (get_data channel w2)).
Proof.
  split.
  - intros Hn.
    assert (E : get_data channel w
                = (Raise ValueError,
                   after_ask "wfmpre:nr_pt?"
                     (after_write ("data:source ch" ++ str_of_int channel) w))).
    { unfold get_data. rewrite bind_write, bind_ask.
      apply bind_lift_raise. unfold int.
      change (reply "wfmpre:nr_pt?"
                (after_write ("data:source ch" ++ str_of_int channel) w))
        with (r_nr_pt (transcript channel w)).
      now rewrite Hn. }
    split; [exact E|].
    intros msgs Hsent. rewrite E in Hsent. unfold newly_sent in Hsent.
    cbn [snd sent after_ask after_write] in Hsent.
    rewrite <- app_assoc in Hsent. apply app_inv_head in Hsent. subst msgs.
    split; [reflexivity|].
    intros [Hin|[Hin|[]]]; discriminate Hin.
  - intros w2 t1 t2 [n1 Hn1] [n2 Hn2] Hc Hxi Hym Hxz Hyz Hxo Hyo Hxu Hyu.
    rewrite !get_data_result. fold t1 t2. unfold waveform.
    now rewrite Hn1, Hn2, Hc, Hxi, Hym, Hxz, Hyz, Hxo, Hyo, Hxu, Hyu.
Qed.

(** X13.  What [get_data]'s decode does with a block that is not well
    formed.  The empty block raises [IndexError] at line 87.  Every
    other block raises the missing-header exception there, a block of
    one byte included, whatever that byte is: lines 89-93 are not
    reached, so neither a [ValueError] nor an array comes out of the
    decode, whatever digit count, byte count and payload follow the
    first byte.  On a scope that sends an empty block, [get_data]
    raises [IndexError] at the end of the exchange. *)
Theorem decode_curve_malformed :
  decode_curve EmptyString = Raise IndexError
  /\ (forall c : ascii,
        decode_curve (String c EmptyString)
        = Raise (Exception missing_header))
  /\ (forall (raw_bin : string) (e : exn),
        decode_curve raw_bin = Raise e ->
        (raw_bin = EmptyString /\ e = IndexError)
        \/ (raw_bin <> EmptyString /\ e = Exception missing_header))
  /\ (forall raw_bin : string, decode_curve raw_bin <> Raise ValueError)
  /\ (forall (channel : Z) (w : World R) (n : Z) (xi ym xz yz xo yo : F),
        let t := transcript channel w in
        int (r_nr_pt t) = Ok n ->
        float_of_string (r_xincr t) = Some xi ->
        float_of_string (r_ymult t) = Some ym ->
        float_of_string (r_xzero t) = Some xz ->
        float_of_string (r_yzero t) = Some yz ->
        float_of_string (r_pt_off t) = Some xo ->
        float_of_string (r_yoff t) = Some yo ->
        r_curve t = EmptyString ->
        get_data channel w = (Raise IndexError, r_end t)).
Proof.
  split; [reflexivity|]. split; [reflexivity|]. split; [|split].
  - intros [|c rest] e E.
    + left. split; [reflexivity|]. rewrite decode_curve_empty in E.
      now injection E.
    + right. split; [discriminate|]. rewrite decode_curve_first_byte in E.
      now injection E.
  - intros [|c rest]; discriminate.
  - intros channel w n xi ym xz yz xo yo t Hn Hxi Hym Hxz Hyz Hxo Hyo Hcurve.
    rewrite (get_data_after_preamble channel w n xi ym xz yz xo yo)
      by assumption.
    fold t. rewrite Hcurve.
    now rewrite (bind_lift_raise _ _ _ _ decode_curve_empty).
Qed.

(** X15.  Once the point count and the six scale factors have parsed,
    [get_data] has written fifteen messages and no other, in this
    order: the source selection, the point-count query, the transfer
    settings with the stop point 10000, the curve query, and only then
    the six scale queries and the two unit queries.  That holds whether
    the call then returns or raises: the decode of the block and the
    unit lookups write nothing. *)
Theorem get_data_writes (channel : Z) (w : World R)
        (n : Z) (xi ym xz yz xo yo : F) :
  let t := transcript channel w in
  int (r_nr_pt t) = Ok n ->
  float_of_string (r_xincr t) = Some xi ->
  float_of_string (r_ymult t) = Some ym ->
  float_of_string (r_xzero t) = Some xz ->
  float_of_string (r_yzero t) = Some yz ->
  float_of_string (r_pt_off t) = Some xo ->
  float_of_string (r_yoff t) = Some yo ->
  snd (get_data channel w) = r_end t
  /\ newly_sent w (snd (get_data channel w)) (get_data_messages channel)
  /\ List.length (get_data_messages channel) = 15%nat.
Proof.
  intros t Hn Hxi Hym Hxz Hyz Hxo Hyo.
  assert (E : snd (get_data channel w) = r_end t)
    by now apply (get_data_world channel w n xi ym xz yz xo yo).
  split; [exact E|]. split; [|reflexivity].
  rewrite E. apply sent_r_end.
Qed.
End Waveform_more.

(** ** The byte-at-a-time reads of the 2936-R *)

Section Polling_facts.
Context {R : Type} `{Resource R} `{Newport_2936_R_bytes.Bytes R}
        {F : Type} `{Float F}.
Import Newport_2936_R Newport_2936_R_bytes.

Lemma sent_after_bytes (k : nat) (w : World R) :
  sent (after_bytes k w) = sent w.
Proof.
  revert w. induction k as [|k IH]; intros w; [reflexivity|].
  cbn [after_bytes]. now rewrite IH.
Qed.

Lemma byte_at_S (k : nat) (w : World R) :
  byte_at (S k) w = byte_at k (after_byte w).
Proof. reflexivity. Qed.

Lemma decode_strip_short (b : ascii) (s : string) :
  decode_strip b = Ok s -> (String.length s <= 1)%nat.
Proof.
  unfold decode_strip. destruct (code b <? 128); [|discriminate].
  intros E. injection E as <-.
  unfold strip_by. cbn [lstrip_by].
  destruct (is_crlf b); cbn; [lia|].
  destruct (is_crlf b); cbn; lia.
Qed.

(** X16.  [flush_read] reads and drops bytes until a read times out: on
    a line that delivers [k] bytes and then times out it returns after
    [k + 1] reads, having written nothing; with fewer iterations it has
    not returned, and on a line that never times out it never
    returns. *)
Theorem flush_read_drains (k : nat) (w : World R) :
  (forall i, (i < k)%nat -> byte_at i w <> None) ->
  (byte_at k w = None ->
   (forall fuel, (k < fuel)%nat ->
      flush_read fuel w = Some (Ok tt, after_bytes (S k) w))
   /\ sent (after_bytes (S k) w) = sent w)
  /\ (forall fuel, (fuel <= k)%nat -> flush_read fuel w = None).
Proof.
  revert w. induction k as [|k IH]; intros w Hbytes.
  - split.
    + intros Hnone. split; [|apply sent_after_bytes].
      intros [|fuel] Hfuel; [lia|].
      cbn [flush_read]. unfold byte_at in Hnone. cbn [after_bytes] in Hnone.
      now rewrite Hnone.
    + intros fuel Hfuel. assert (fuel = O) as -> by lia. reflexivity.
  - assert (Hfirst : byte_at 0 w <> None) by (apply Hbytes; lia).
    unfold byte_at in Hfirst. cbn [after_bytes] in Hfirst.
    destruct (IH (after_byte w)) as [Hsome Hnone].
    { intros i Hi. rewrite <- byte_at_S. apply Hbytes. lia. }
    split.
    + intros Hk. rewrite byte_at_S in Hk.
      destruct (Hsome Hk) as [Hrun _]. split; [|apply sent_after_bytes].
      intros [|fuel] Hfuel; [lia|].
      cbn [flush_read].
      destruct (fst (rsrc_read_bytes_1 (dev w))); [|contradiction].
      apply Hrun. lia.
    + intros [|fuel] Hfuel; [reflexivity|].
      cbn [flush_read].
      destruct (fst (rsrc_read_bytes_1 (dev w))); [|contradiction].
      apply Hnone. lia.
Qed.

(** X17.  [read] tries again after every timeout and returns the first
    byte that arrives: one character, or the empty string when that byte
    is a carriage return or a line feed, and [ValueError] when it is
    above 127.  It has written nothing.  On a line on which no byte
    arrives it never returns. *)
Theorem read_first_byte (k : nat) (w : World R) :
  (forall i, (i < k)%nat -> byte_at i w = None) ->
  (forall b, byte_at k w = Some b ->
     (forall fuel, (k < fuel)%nat ->
        read fuel w = Some (decode_strip b, after_bytes (S k) w))
     /\ sent (after_bytes (S k) w) = sent w
     /\ (forall s, decode_strip b = Ok s -> (String.length s <= 1)%nat))
  /\ (forall fuel, (fuel <= k)%nat -> read fuel w = None).
Proof.
  revert w. induction k as [|k IH]; intros w Hquiet.
  - split.
    + intros b Hb. split; [|split; [apply sent_after_bytes
                                   | apply decode_strip_short]].
      intros [|fuel] Hfuel; [lia|].
      cbn [read]. unfold byte_at in Hb. cbn [after_bytes] in Hb.
      now rewrite Hb.
    + intros fuel Hfuel. assert (fuel = O) as -> by lia. reflexivity.
  - assert (Hfirst : byte_at 0 w = None) by (apply Hquiet; lia).
    unfold byte_at in Hfirst. cbn [after_bytes] in Hfirst.
    destruct (IH (after_byte w)) as [Hsome Hnone].
    { intros i Hi. rewrite <- byte_at_S. apply Hquiet. lia. }
    split.
    + intros b Hb. rewrite byte_at_S in Hb.
      destruct (Hsome b Hb) as [Hrun _].
      split; [|split; [apply sent_after_bytes | apply decode_strip_short]].
      intros [|fuel] Hfuel; [lia|].
      cbn [read]. rewrite Hfirst. apply Hrun. lia.
    + intros [|fuel] Hfuel; [reflexivity|].
      cbn [read]. rewrite Hfirst. apply Hnone. lia.
Qed.

Lemma read_ok_short (fuel : nat) (w w' : World R) (s : string) :
  read fuel w = Some (Ok s, w') ->
  (String.length s <= 1)%nat /\ sent w' = sent w.
Proof.
  revert w. induction fuel as [|fuel IH]; intros w; [discriminate|].
  cbn [read]. destruct (fst (rsrc_read_bytes_1 (dev w))) as [b|].
  - intros E. injection E as Hs <-.
    split; [now apply (decode_strip_short b) | reflexivity].
  - intros E. destruct (IH _ E) as [Hlen Hsent]. split; [exact Hlen|].
    now rewrite Hsent.
Qed.

(** X18.  The number [get_power] returns is [float] of at most one
    character: [query] gives it the first byte of the answer only.  It
    has written the channel selection and the power query. *)
Theorem get_power_one_character (fuel : nat) (channel : Z) (w w' : World R)
        (v : F) :
  get_power fuel channel w = Some (Ok v, w') ->
  (exists s, (String.length s <= 1)%nat /\ float_of_string s = Some v)
  /\ newly_sent w w'
       ["pm:channel " ++ str_of_int channel ++ LF; "pm:power?" ++ LF].
Proof.
  unfold get_power, query, bindF, liftF, set_channel, write, Visa.write, lift.
  destruct (read fuel
              (after_write ("pm:power?" ++ LF)
                 (after_write (("pm:channel " ++ str_of_int channel) ++ LF) w)))
    as [[[s|e] w1]|] eqn:Eread; try discriminate.
  unfold of_option. destruct (float_of_string s) as [v0|] eqn:Ev;
    [|discriminate].
  intros E. injection E as <- <-.
  destruct (read_ok_short _ _ _ _ Eread) as [Hlen Hsent].
  split; [now exists s|].
  unfold newly_sent. rewrite Hsent. cbn [sent after_write].
  now rewrite <- app_assoc, append_assoc.
Qed.

Lemma flush_read_sent (fuel : nat) (w w' : World R) (r : result unit) :
  flush_read fuel w = Some (r, w') -> r = Ok tt /\ sent w' = sent w.
Proof.
  revert w. induction fuel as [|fuel IH]; intros w; [discriminate|].
  cbn [flush_read]. destruct (fst (rsrc_read_bytes_1 (dev w))).
  - intros E. destruct (IH _ E) as [Hr Hsent]. split; [exact Hr|].
    now rewrite Hsent.
  - intros E. injection E as <- <-. now split.
Qed.

(** X19.  [_initialize] returns exactly when its [flush_read] does, and
    has then written six messages: channel 1 is selected and its units
    set to watts, channel 2 is selected, and then [set_units], called
    without a channel, selects channel 1 again before it sets the units.
    The units command is never written while channel 2 is selected, and
    channel 1 is the one left selected. *)
Theorem initialize_writes (fuel : nat) (w : World R) :
  (_initialize fuel w = None <-> flush_read fuel w = None)
  /\ forall r w',
       _initialize fuel w = Some (r, w') ->
       r = Ok tt
       /\ newly_sent w w'
            ["pm:channel 1" ++ LF; "pm:channel 1" ++ LF; "pm:units 2" ++ LF;
             "pm:channel 2" ++ LF; "pm:channel 1" ++ LF; "pm:units 2" ++ LF].
Proof.
  unfold _initialize, bindF.
  destruct (flush_read fuel w) as [[r0 w0]|] eqn:Eflush.
  - destruct (flush_read_sent _ _ _ _ Eflush) as [-> Hsent].
    split; [split; discriminate|].
    intros r w'. unfold liftF. cbn. intros E. injection E as <- <-.
    split; [reflexivity|].
    unfold newly_sent. cbn [sent after_write]. rewrite Hsent.
    now rewrite <- !app_assoc.
  - split; [split; reflexivity|]. discriminate.
Qed.
End Polling_facts.

(** ** The extra properties on concrete instruments *)

Import Newport_1830_C Newport_1830_C_panel Newport_2936_R_bytes.

(** A 1830-C in dBm mode whose display reads [n/a]. *)
Lemma power_failure_leaves_watts_witness :
  let w := Mock.fresh (Mock.meter "3" "n/a") in
  @power Mock.Device _ float _ w
  = (Raise ValueError, after_ask "D?" (after_write "U1" (after_ask "U?" w)))
  /\ forall msgs, newly_sent w (snd (@power Mock.Device _ float _ w)) msgs ->
       msgs = ["U?"; "U1"; "D?"]
       /\ ~ In ("U" ++ reply "U?" w) (tl msgs).
Proof.
  apply (@power_failure_leaves_watts Mock.Device _ float _).
  - discriminate.
  - reflexivity.
Defined.

Lemma hold_round_trip_witness :
  exists w',
    bind (enable_hold true) (fun _ => hold_enabled)
      (Mock.fresh (Bench.register "G" "1"))
    = (Ok true, w')
    /\ newly_sent (Mock.fresh (Bench.register "G" "1")) w' ["G0"; "G?"].
Proof.
  apply (hold_round_trip (Mock.fresh (Bench.register "G" "1")) true).
  apply register_echoes.
Defined.

Lemma zero_round_trip_witness :
  exists w',
    bind (enable_zero true) (fun _ => zero_enabled)
      (Mock.fresh (Bench.register "Z" "0"))
    = (Ok true, w')
    /\ newly_sent (Mock.fresh (Bench.register "Z" "0")) w' ["Z1"; "Z?"].
Proof.
  apply (zero_round_trip (Mock.fresh (Bench.register "Z" "0")) true).
  apply register_echoes.
Defined.

Lemma local_lockout_reads_text_witness :
  fst (local_lockout (Mock.fresh (Bench.register "L" "0"))) = Ok true
  /\ fst (bind (local_lockout_set false) (fun _ => local_lockout)
            (Mock.fresh (Bench.register "L" "1")))
     = Ok true
  /\ fst (bind close (fun _ => local_lockout)
            (Mock.fresh (Bench.register "L" "1")))
     = Ok true.
Proof.
  split.
  - destruct (local_lockout_reads_text (Mock.fresh (Bench.register "L" "0")))
      as (_ & Hzero & _).
    apply Hzero. reflexivity.
  - destruct (local_lockout_reads_text (Mock.fresh (Bench.register "L" "1")))
      as (_ & _ & Hecho).
    apply Hecho. apply register_echoes.
Defined.

Lemma attenuator_enabled_never_reads_witness :
  let w := Mock.fresh (Bench.register "A" "0") in
  fst (bind (enable_attenuator true)
         (fun _ => bind (mixin_query "A?") (fun r => lift (int r))) w)
  = Ok 1
  /\ fst (bind (enable_attenuator true) (fun _ => attenuator_enabled) w)
     = Ok false.
Proof.
  destruct (attenuator_enabled_never_reads
              (Mock.fresh (Bench.register "A" "0"))) as (_ & _ & Hecho).
  apply Hecho. apply register_echoes.
Defined.

Lemma filter_round_trip_witness :
  let w := Mock.fresh (Bench.register "F" "3") in
  fst (bind set_slow_filter (fun _ => get_filter) w) = Ok SLOW_FILTER
  /\ fst (bind set_medium_filter (fun _ => get_filter) w) = Ok MEDIUM_FILTER
  /\ fst (bind set_no_filter (fun _ => get_filter) w) = Ok NO_FILTER.
Proof.
  apply (filter_round_trip (Mock.fresh (Bench.register "F" "3"))).
  apply register_echoes.
Defined.

Lemma range_round_trip_witness :
  fst (bind (set_range 5) (fun _ => get_range)
         (Mock.fresh (Bench.register "R" "0")))
  = Ok 5
  /\ (let w := Mock.fresh (Bench.register "R" " 07 ") in
      disable_auto_range w = (Ok tt, after_write "R7" (after_ask "R?" w)))
  /\ (let w := Mock.fresh (Bench.register "R" "auto") in
      disable_auto_range w = (Raise ValueError, after_ask "R?" w)).
Proof.
  split; [|split].
  - destruct (range_round_trip (Mock.fresh (Bench.register "R" "0")))
      as (Hecho & _).
    apply Hecho. apply register_echoes.
  - destruct (range_round_trip (Mock.fresh (Bench.register "R" " 07 ")))
      as (_ & _ & Hint & _).
    apply (Hint 7). reflexivity.
  - destruct (range_round_trip (Mock.fresh (Bench.register "R" "auto")))
      as (_ & _ & _ & Hnone).
    apply Hnone. reflexivity.
Defined.

Lemma get_units_outcomes_witness :
  (exists name,
     fst (get_units (Mock.fresh (Mock.meter "3" "0.5"))) = Ok name
     /\ In name ["watts"; "db"; "dbm"; "rel"])
  /\ fst (get_units (Mock.fresh (Mock.meter "7" "0.5")))
     = Raise (KeyError "7")
  /\ fst (get_units (Mock.fresh (Mock.meter "W" "0.5"))) = Raise ValueError.
Proof.
  split; [|split].
  - destruct (get_units_outcomes (Mock.fresh (Mock.meter "3" "0.5")))
      as (_ & Hname & _).
    apply (Hname 3); [reflexivity | lia].
  - destruct (get_units_outcomes (Mock.fresh (Mock.meter "7" "0.5")))
      as (_ & _ & Hkey & _).
    apply (Hkey 7); [reflexivity | lia].
  - destruct (get_units_outcomes (Mock.fresh (Mock.meter "W" "0.5")))
      as (_ & _ & _ & Hvalue).
    apply Hvalue. reflexivity.
Defined.

Lemma instrument_accepts_witness :
  Tektronix.model_of_idn "TEKTRONIX,DPO4034,C012345,CF:91.1CT FV:v2.48"
  = Some Tektronix.MSO_DPO_4000.
Proof.
  apply instrument_accepts.
  exists "DPO4034", "C012345", "CF:91.1CT FV:v2.48".
  split; [reflexivity|]. split; [reflexivity|]. split; [reflexivity|].
  right. split; [reflexivity|]. cbn. tauto.
Defined.

(** A scope whose combined answer has three fields: value, mean and the
    unit. *)
Lemma read_measurement_stats_result_witness :
  let w := Mock.fresh (Bench.scope_stats "ALL" ("1.5;1.4;" ++ quoted "V")
                         EmptyString "32") in
  exists stats w',
    @Tektronix.read_measurement_stats Mock.Device _ Q _ 1 w = (Ok stats, w')
    /\ map fst stats = ["value"; "mean"; "nsamps"]
    /\ nth_error stats 2 = Some ("nsamps", Tektronix.Count 32).
Proof.
  intros w.
  destruct (@Tektronix.read_measurement_stats Mock.Device _ Q _ 1 w)
    as [[stats|e] w'] eqn:Hrun; [|vm_compute in Hrun; discriminate Hrun].
  exists stats, w'. split; [reflexivity|].
  destruct (read_measurement_stats_result 1 w w' stats Hrun)
    as (_ & Hkeys & _ & n & Hn & Hlast).
  split; [exact Hkeys|].
  assert (Hlen : List.length stats = 3%nat)
    by (rewrite <- (length_map fst), Hkeys; reflexivity).
  rewrite Hlen in Hlast. cbn [Nat.sub] in Hlast.
  assert (E : n = 32) by (vm_compute in Hn; now injection Hn).
  now rewrite <- E.
Defined.

Lemma read_measurement_value_fields_witness :
  let w := Mock.fresh (Bench.scope_stats "ALL" EmptyString
                         ("1.5;" ++ quoted "V") "32") in
  fst (@Tektronix.read_measurement_value Mock.Device _ Q _ 1 w)
  = Tektronix.Q_ "1.5V".
Proof.
  intros w.
  destruct (@read_measurement_value_fields Mock.Device _ Q _ 1 w)
    as (_ & _ & Hquoted & _).
  apply (Hquoted "1.5" "V"); reflexivity.
Defined.

(** A scope that sends an empty block, and the one-byte block [x]. *)
Lemma decode_curve_malformed_witness :
  (let w := Mock.fresh (Bench.scope_sending EmptyString) in
   @Tektronix.get_data Mock.Device _ float _ _ 1 w
   = (Raise IndexError, r_end (transcript 1 w)))
  /\ Tektronix.decode_curve "x" = Raise (Exception Tektronix.missing_header)
  /\ Tektronix.decode_curve "#18" <> Raise ValueError.
Proof.
  destruct (@decode_curve_malformed Mock.Device _ float _ _)
    as (_ & Hbyte & _ & Hvalue & Hempty).
  split; [|split].
  - intros w.
    apply (Hempty 1 w 10000 1%float 1%float 0%float 0%float 0%float 0%float);
      reflexivity.
  - apply Hbyte.
  - apply Hvalue.
Defined.

Lemma get_data_point_count_witness :
  (let w := Mock.fresh (Bench.scope_reporting "n/a" [10; 20]) in
   @Tektronix.get_data Mock.Device _ Q _ _ 1 w
   = (Raise ValueError,
      after_ask "wfmpre:nr_pt?" (after_write "data:source ch1" w)))
  /\ fst (@Tektronix.get_data Mock.Device _ Q _ _ 1
            (Mock.fresh (Bench.scope_reporting "500" [10; 20])))
     = fst (@Tektronix.get_data Mock.Device _ Q _ _ 1
              (Mock.fresh (Bench.scope_reporting "10000" [10; 20]))).
Proof.
  split.
  - intros w.
    destruct (@get_data_point_count Mock.Device _ Q _ _ 1 w)
      as (Hfail & _).
    apply Hfail. reflexivity.
  - destruct (@get_data_point_count Mock.Device _ Q _ _ 1
                (Mock.fresh (Bench.scope_reporting "500" [10; 20])))
      as (_ & Hsame).
    apply (Hsame (Mock.fresh (Bench.scope_reporting "10000" [10; 20])));
      try reflexivity.
    + exists 500. reflexivity.
    + exists 10000. reflexivity.
Defined.

Lemma get_data_writes_witness :
  let w := Mock.fresh (Mock.scope [10; 20; 30; 40] "OFF") in
  newly_sent w (snd (@Tektronix.get_data Mock.Device _ float _ _ 1 w))
    ["data:source ch1"; "wfmpre:nr_pt?"; "data:width 2";
     "data:encdg RIBinary"; "data:start 1"; "data:stop 10000"; "curve?";
     "wfmpre:xincr?"; "wfmpre:ymult?"; "wfmpre:xzero?"; "wfmpre:yzero?";
     "wfmpre:pt_off?"; "wfmpre:yoff?"; "wfmpre:xunit?"; "wfmpre:yunit?"].
Proof.
  intros w.
  refine (proj1 (proj2 (@get_data_writes Mock.Device _ float _ _ 1 w
                          4 1%float 1%float 0%float 0%float 0%float 0%float
                          _ _ _ _ _ _ _)));
    reflexivity.
Defined.

(** A line on which two bytes arrive. *)
Lemma flush_read_drains_witness :
  let w := mkWorld (Bench.mkWire (Bench.arriving "ab")) [] in
  flush_read 3 w = Some (Ok tt, after_bytes 3 w)
  /\ sent (after_bytes 3 w) = sent w
  /\ flush_read 2 w = None.
Proof.
  intros w.
  destruct (flush_read_drains 2 w) as (Hdone & Hshort).
  - intros i Hi.
    destruct i as [|[|i]]; [discriminate | discriminate | lia].
  - destruct (Hdone eq_refl) as (Hrun & Hsent).
    split; [apply Hrun; lia|]. split; [exact Hsent|].
    apply Hshort. lia.
Defined.

(** A line that times out twice before the byte [5] arrives. *)
Lemma read_first_byte_witness :
  let w := mkWorld (Bench.mkWire [None; None; Some "5"%char]) [] in
  read 3 w = Some (Ok "5", after_bytes 3 w)
  /\ read 2 w = None.
Proof.
  intros w.
  destruct (read_first_byte 2 w) as (Hbyte & Hshort).
  - intros i Hi.
    destruct i as [|[|i]]; [reflexivity | reflexivity | lia].
  - destruct (Hbyte "5"%char eq_refl) as (Hrun & _).
    split; [apply Hrun; lia | apply Hshort; lia].
Defined.

(** The meter answers [5.25]; [get_power] returns 5.0. *)
Lemma get_power_one_character_witness :
  let w := mkWorld (Bench.mkWire (None :: Bench.arriving "5.25")) [] in
  exists w',
    @get_power Bench.Wire _ _ float _ 5 1 w = Some (Ok 5%float, w')
    /\ (exists s, (String.length s <= 1)%nat
                  /\ float_of_string s = Some 5%float)
    /\ newly_sent w w' ["pm:channel 1" ++ LF; "pm:power?" ++ LF].
Proof.
  intros w.
  assert (Hrun : @get_power Bench.Wire _ _ float _ 5 1 w
                 = Some (Ok 5%float,
                         snd (match @get_power Bench.Wire _ _ float _ 5 1 w with
                              | Some p => p
                              | None => (Raise ValueError, w)
                              end)))
    by reflexivity.
  eexists. split; [exact Hrun|].
  exact (get_power_one_character 5 1 w _ 5%float Hrun).
Defined.

Lemma initialize_writes_witness :
  let w := mkWorld (Bench.mkWire (Bench.arriving "ab")) [] in
  exists w',
    _initialize 5 w = Some (Ok tt, w')
    /\ newly_sent w w'
         ["pm:channel 1" ++ LF; "pm:channel 1" ++ LF; "pm:units 2" ++ LF;
          "pm:channel 2" ++ LF; "pm:channel 1" ++ LF; "pm:units 2" ++ LF]
    /\ _initialize 2 w = None.
Proof.
  intros w.
  destruct (_initialize 5 w) as [[r w']|] eqn:Hrun;
    [|vm_compute in Hrun; discriminate Hrun].
  destruct (initialize_writes 5 w) as (_ & Hdone).
  destruct (Hdone r w' Hrun) as (Hr & Hsent).
  exists w'. split; [now rewrite Hr|]. split; [exact Hsent|].
  destruct (initialize_writes 2 w) as (Hnone & _).
  apply Hnone. reflexivity.
Defined.
